(** * Supabase MCP connector: search and fetch over a PostgREST table

    A shallow embedding of [supabase_mcp_connector.py] and the properties
    of its configuration check, its request construction and its
    normalisation of responses and failures.

    Modelling conventions.
    - A Python [str] is a [string] (the bytes of its UTF-8 text).
    - A value produced by [response.json()] is a [pyval].
    - A Python dict built by the program ([params], [headers], the
      dicts the tools return) is a [gmap] keyed by strings; a JSON
      object of a response keeps its members in order, as a list.
    - A call either returns or raises: [outcome].  [try]/[except] is
      [try_except]; the handlers of the source are tried in order.
    - The network is a function from the request to what
      [requests.get] does with it.
    - [logger] calls do not change any returned value and are left out;
      interpreter limits (memory, recursion depth, the digit limit of
      int/str conversion) and asynchronous interrupts are not modelled. *)

From Stdlib Require Import ZArith Ascii String List Lia.
From stdpp Require Import base option list strings gmap pretty.

Set Warnings "-register-all".

Local Open Scope string_scope.
Local Open Scope Z_scope.

(** ** Exceptions and outcomes *)

(** The exception classes the program can tell apart or raise itself.
    [RequestException] stands for [requests.exceptions.RequestException]
    and all its subclasses (ConnectionError, Timeout, HTTPError, ...);
    the others are subclasses of [Exception] only. *)
Inductive exn_class : Type :=
  | RequestException
  | KeyError
  | TypeError
  | ValueError
  | IndexError
  | AttributeError
  | OtherException.

(** An exception value: its class and [str(e)]. *)
Record exn : Type := Exn { exn_cls : exn_class; exn_str : string }.

(** [isinstance(e, requests.exceptions.RequestException)] *)
Definition is_RequestException (e : exn) : bool :=
  match exn_cls e with
  | RequestException => true
  | _ => false
  end.

Inductive outcome (A : Type) : Type :=
  | Return (a : A)
  | Raise (e : exn).
Arguments Return {A} a.
Arguments Raise {A} e.

#[global] Instance outcome_ret : MRet outcome := fun A a => Return a.
#[global] Instance outcome_bind : MBind outcome := fun A B f m =>
  match m with
  | Return a => f a
  | Raise e => Raise e
  end.

(** [try: body except Exception as e: handler(e)] *)
Definition try_except {A} (body : outcome A) (handler : exn -> outcome A)
  : outcome A :=
  match body with
  | Return a => Return a
  | Raise e => handler e
  end.

(** Evaluation of a comprehension [[f(x) for x in xs]]: left to right,
    the first exception aborts the whole list. *)
Fixpoint comprehension {A B} (f : A -> outcome B) (xs : list A)
  : outcome (list B) :=
  match xs with
  | [] => Return []
  | x :: xs' =>
      y ← f x;
      ys ← comprehension f xs';
      Return (y :: ys)
  end.

(** ** Strings *)

(** [s.split(sep)] for a one-character separator. *)
Fixpoint str_split (sep : ascii) (s : string) : list string :=
  match s with
  | EmptyString => [EmptyString]
  | String c s' =>
      if Ascii.eqb c sep then EmptyString :: str_split sep s'
      else match str_split sep s' with
           | [] => [String c EmptyString]
           | x :: xs => String c x :: xs
           end
  end.

(** [sep.join(xs)] *)
Definition str_join (sep : string) (xs : list string) : string :=
  String.concat sep xs.

(** [c in s] for a character [c]. *)
Fixpoint str_contains (c : ascii) (s : string) : bool :=
  match s with
  | EmptyString => false
  | String c' s' => Ascii.eqb c' c || str_contains c s'
  end.

(** [xs[i]] on a list: IndexError when out of range. *)
Definition list_getitem {A} (xs : list A) (i : nat) : outcome A :=
  match xs !! i with
  | Some x => Return x
  | None => Raise (Exn IndexError "list index out of range")
  end.

(** ** Python values *)

(** What [response.json()] can return.  A float is kept as the two
    things the program can observe of it: whether it is zero, and its
    [repr]. *)
Inductive pyval : Type :=
  | PNone
  | PBool (b : bool)
  | PInt (z : Z)
  | PFloat (nonzero : bool) (repr : string)
  | PStr (s : string)
  | PList (items : list pyval)
  | PDict (members : list (string * pyval)).

(** [type(v).__name__] *)
Definition py_type_name (v : pyval) : string :=
  match v with
  | PNone => "NoneType"
  | PBool _ => "bool"
  | PInt _ => "int"
  | PFloat _ _ => "float"
  | PStr _ => "str"
  | PList _ => "list"
  | PDict _ => "dict"
  end.

(** [bool(v)], the test of [if not results] *)
Definition py_truthy (v : pyval) : bool :=
  match v with
  | PNone => false
  | PBool b => b
  | PInt z => negb (z =? 0)
  | PFloat nz _ => nz
  | PStr s => negb (String.eqb s "")
  | PList l => match l with [] => false | _ => true end
  | PDict d => match d with [] => false | _ => true end
  end.

Definition dquote : ascii := ascii_of_nat 34.
Definition backslash : ascii := ascii_of_nat 92.

Definition hex_digit (n : N) : ascii :=
  match n with
  | 0 => "0" | 1 => "1" | 2 => "2" | 3 => "3" | 4 => "4" | 5 => "5"
  | 6 => "6" | 7 => "7" | 8 => "8" | 9 => "9" | 10 => "a" | 11 => "b"
  | 12 => "c" | 13 => "d" | 14 => "e" | _ => "f"
  end%char%N.

(** One character of [repr] of a str delimited by [quote]. *)
Definition repr_char (quote c : ascii) : string :=
  let n := N_of_ascii c in
  if Ascii.eqb c quote || Ascii.eqb c backslash then
    String backslash (String c "")
  else if (n =? 9)%N then String backslash "t"
  else if (n =? 10)%N then String backslash "n"
  else if (n =? 13)%N then String backslash "r"
  else if (n <? 32)%N || (n =? 127)%N then
    String backslash (String "x"%char
      (String (hex_digit (n / 16)) (String (hex_digit (n mod 16)) "")))
  else String c "".

Fixpoint repr_chars (quote : ascii) (s : string) : string :=
  match s with
  | EmptyString => EmptyString
  | String c s' => repr_char quote c +:+ repr_chars quote s'
  end.

(** [repr(s)] of a str: single quotes, unless the text has a single
    quote and no double quote. *)
Definition str_repr (s : string) : string :=
  let quote : ascii :=
    if str_contains "'"%char s && negb (str_contains dquote s)
    then dquote else "'"%char in
  String quote (repr_chars quote s +:+ String quote "").

(** [repr(v)]; [str(v)] differs from it on a str only. *)
Fixpoint py_repr (v : pyval) : string :=
  match v with
  | PNone => "None"
  | PBool true => "True"
  | PBool false => "False"
  | PInt z => pretty z
  | PFloat _ r => r
  | PStr s => str_repr s
  | PList l => "[" +:+ str_join ", " (map py_repr l) +:+ "]"
  | PDict d =>
      "{" +:+ str_join ", "
                (map (fun kv => str_repr (fst kv) +:+ ": " +:+ py_repr (snd kv)) d)
          +:+ "}"
  end.

(** [str(v)] *)
Definition py_str (v : pyval) : string :=
  match v with
  | PStr s => s
  | _ => py_repr v
  end.

(** [d.get(key)] on the members of a JSON object. *)
Fixpoint dict_lookup (key : string) (d : list (string * pyval)) : option pyval :=
  match d with
  | [] => None
  | (k, v) :: d' => if String.eqb k key then Some v else dict_lookup key d'
  end.

(** [v[key]] for a str [key]. *)
Definition py_getitem_str (v : pyval) (key : string) : outcome pyval :=
  match v with
  | PDict d =>
      match dict_lookup key d with
      | Some x => Return x
      | None => Raise (Exn KeyError (str_repr key))
      end
  | PStr _ => Raise (Exn TypeError "string indices must be integers, not 'str'")
  | PList _ =>
      Raise (Exn TypeError "list indices must be integers or slices, not str")
  | _ => Raise (Exn TypeError
                  ("'" +:+ py_type_name v +:+ "' object is not subscriptable"))
  end.

(** [v[0]] *)
Definition py_getitem_0 (v : pyval) : outcome pyval :=
  match v with
  | PList l => list_getitem l 0
  | PStr s =>
      match s with
      | String c _ => Return (PStr (String c ""))
      | EmptyString => Raise (Exn IndexError "string index out of range")
      end
  | PDict _ => Raise (Exn KeyError "0")
  | _ => Raise (Exn TypeError
                  ("'" +:+ py_type_name v +:+ "' object is not subscriptable"))
  end.

Fixpoint str_chars (s : string) : list pyval :=
  match s with
  | EmptyString => []
  | String c s' => PStr (String c "") :: str_chars s'
  end.

(** The items [for doc in v] runs over. *)
Definition py_iter (v : pyval) : outcome (list pyval) :=
  match v with
  | PList l => Return l
  | PDict d => Return (map (fun kv => PStr (fst kv)) d)
  | PStr s => Return (str_chars s)
  | _ => Raise (Exn TypeError
                  ("'" +:+ py_type_name v +:+ "' object is not iterable"))
  end.

(** [v.get(key, default)]: the dict method; any other value has no
    such attribute. *)
Definition py_get (v : pyval) (key : string) (default : pyval) : outcome pyval :=
  match v with
  | PDict d =>
      match dict_lookup key d with
      | Some x => Return x
      | None => Return default
      end
  | _ => Raise (Exn AttributeError
                  ("'" +:+ py_type_name v +:+ "' object has no attribute 'get'"))
  end.

(** ** [int(s)] on ASCII text *)

Definition is_py_space (c : ascii) : bool :=
  let n := N_of_ascii c in
  ((9 <=? n) && (n <=? 13) || (28 <=? n) && (n <=? 32))%N.

Fixpoint str_lstrip (s : string) : string :=
  match s with
  | String c s' => if is_py_space c then str_lstrip s' else s
  | EmptyString => EmptyString
  end.

Definition str_strip (s : string) : string :=
  String.rev (str_lstrip (String.rev (str_lstrip s))).

Definition digit_value (c : ascii) : option Z :=
  let n := N_of_ascii c in
  if ((48 <=? n) && (n <=? 57))%N then Some (Z.of_N n - 48) else None.

(** Decimal digits, single underscores allowed between two digits. *)
Fixpoint parse_digits (acc : Z) (after_digit : bool) (s : string) : option Z :=
  match s with
  | EmptyString => if after_digit then Some acc else None
  | String c s' =>
      match digit_value c with
      | Some d => parse_digits (10 * acc + d) true s'
      | None =>
          if Ascii.eqb c "_" && after_digit then parse_digits acc false s'
          else None
      end
  end.

Definition py_int (s : string) : outcome Z :=
  let t := str_strip s in
  let parsed :=
    match t with
    | String "+" r => parse_digits 0 false r
    | String "-" r => Z.opp <$> parse_digits 0 false r
    | _ => parse_digits 0 false t
    end in
  match parsed with
  | Some z => Return z
  | None => Raise (Exn ValueError
                     ("invalid literal for int() with base 10: " +:+ str_repr s))
  end.

(** ** Module-level configuration (lines 21-35) *)

(** [os.getenv(name, default)] *)
Definition getenv (env : gmap string string) (name default : string) : string :=
  match env !! name with
  | Some v => v
  | None => default
  end.

(** [not v] for the result of [os.getenv(name)]. *)
Definition unset_or_empty (v : option string) : bool :=
  match v with
  | None => true
  | Some s => String.eqb s ""
  end.

Record Config : Type := {
  SUPABASE_URL : string;
  SUPABASE_ANON_KEY : string;
  SUPABASE_TABLE : string;
  SEARCH_COLUMNS : list string;
  ID_COLUMN : string;
  TITLE_COLUMN : string;
  CONTENT_COLUMN : string;
  REQUEST_TIMEOUT : Z
}.

Definition config_error : exn :=
  Exn ValueError
    "SUPABASE_URL and SUPABASE_ANON_KEY environment variables are required".

(** The module body up to and including the validation: the settings
    are read in source order, then the two required ones are checked.
    The tunnel settings (lines 29-30) cannot fail and are not used by
    the connector. *)
Definition load_config (env : gmap string string) : outcome Config :=
  let url := env !! "SUPABASE_URL" in
  let key := env !! "SUPABASE_ANON_KEY" in
  let table := getenv env "SUPABASE_TABLE" "documents" in
  let columns := str_split "," (getenv env "SEARCH_COLUMNS" "title,content") in
  let id_column := getenv env "ID_COLUMN" "id" in
  let title_column := getenv env "TITLE_COLUMN" "title" in
  let content_column := getenv env "CONTENT_COLUMN" "content" in
  timeout ← py_int (getenv env "REQUEST_TIMEOUT" "30");
  if unset_or_empty url || unset_or_empty key then Raise config_error
  else
    Return {| SUPABASE_URL := default "" url;
              SUPABASE_ANON_KEY := default "" key;
              SUPABASE_TABLE := table;
              SEARCH_COLUMNS := columns;
              ID_COLUMN := id_column;
              TITLE_COLUMN := title_column;
              CONTENT_COLUMN := content_column;
              REQUEST_TIMEOUT := timeout |}.

(** ** The HTTP collaborator *)

Record Request : Type := {
  req_url : string;
  req_headers : gmap string string;
  req_params : gmap string string;
  req_timeout : Z
}.

(** A response as the program reads it: status line, final URL, and
    what [response.json()] does (returns a value, or raises whatever
    the installed decoder raises on a body that is not JSON). *)
Record Response : Type := {
  status_code : Z;
  reason : string;
  resp_url : string;
  json : outcome pyval
}.

(** [requests.get]: returns a response or raises (connection failure,
    timeout, ...). *)
Definition network : Type := Request -> outcome Response.

(** [response.raise_for_status()]: HTTPError, a RequestException, on a
    4xx or 5xx status and on no other. *)
Definition raise_for_status (r : Response) : outcome unit :=
  if (400 <=? status_code r) && (status_code r <? 500) then
    Raise (Exn RequestException
             (pretty (status_code r) +:+ " Client Error: " +:+ reason r
              +:+ " for url: " +:+ resp_url r))
  else if (500 <=? status_code r) && (status_code r <? 600) then
    Raise (Exn RequestException
             (pretty (status_code r) +:+ " Server Error: " +:+ reason r
              +:+ " for url: " +:+ resp_url r))
  else Return tt.

(** ** The connector (lines 40-141) *)

Record SupabaseConnector : Type := {
  base_url : string;
  headers : gmap string string
}.

(** [SupabaseConnector.__init__] *)
Definition connector_init (cfg : Config) : SupabaseConnector :=
  {| base_url := SUPABASE_URL cfg +:+ "/rest/v1";
     headers :=
       <["Content-Type" := "application/json"]>
         (<["Authorization" := "Bearer " +:+ SUPABASE_ANON_KEY cfg]>
            (<["apikey" := SUPABASE_ANON_KEY cfg]> ∅)) |}.

Section Connector.
Context (cfg : Config) (self : SupabaseConnector) (net : network).

(** One element of [or_conditions] (line 60). *)
Definition ilike_condition (query column : string) : string :=
  column +:+ ".ilike.%" +:+ query +:+ "%".

(** [filter_param] (line 63). *)
Definition filter_param (query : string) : string :=
  "or=(" +:+ str_join "," (map (ilike_condition query) (SEARCH_COLUMNS cfg))
         +:+ ")".

(** The request of [search_documents] (lines 66-77); the two
    subscripts of line 69 can raise IndexError. *)
Definition search_request (query : string) : outcome Request :=
  let url := base_url self +:+ "/" +:+ SUPABASE_TABLE cfg in
  k ← list_getitem (str_split "=" (filter_param query)) 0;
  v ← list_getitem (str_split "=" (filter_param query)) 1;
  Return {| req_url := url;
            req_headers := headers self;
            req_params := <[k := v]> (<["select" := ID_COLUMN cfg]> ∅);
            req_timeout := REQUEST_TIMEOUT cfg |}.

(** The comprehension of line 81. *)
Definition search_ids (results : pyval) : outcome (list string) :=
  docs ← py_iter results;
  comprehension
    (fun doc => v ← py_getitem_str doc (ID_COLUMN cfg); Return (py_str v))
    docs.

(** The [try] block of [search_documents] (lines 57-81). *)
Definition search_documents_body (query : string) : outcome (list string) :=
  request ← search_request query;
  response ← net request;
  _ ← raise_for_status response;
  results ← json response;
  search_ids results.

Definition search_documents (query : string) : outcome (list string) :=
  try_except (search_documents_body query)
    (fun e =>
       if is_RequestException e then Return []   (* line 83 *)
       else Return []).                          (* line 86 *)

(** The request of [fetch_document] (lines 96-107). *)
Definition fetch_request (doc_id : string) : Request :=
  let url := base_url self +:+ "/" +:+ SUPABASE_TABLE cfg in
  {| req_url := url;
     req_headers := headers self;
     req_params :=
       <[ID_COLUMN cfg := "eq." +:+ doc_id]>
         (<["select" := ID_COLUMN cfg +:+ "," +:+ TITLE_COLUMN cfg
                        +:+ "," +:+ CONTENT_COLUMN cfg]> ∅);
     req_timeout := REQUEST_TIMEOUT cfg |}.

(** The dict of the three error returns (lines 112, 128, 136). *)
Definition error_result (doc_id error : string) : gmap string pyval :=
  <["error" := PStr error]>
    (<["content" := PStr ""]>
       (<["title" := PStr ""]> (<["id" := PStr doc_id]> ∅))).

(** Lines 111-124: the result for the decoded body. *)
Definition fetch_row (doc_id : string) (results : pyval)
  : outcome (gmap string pyval) :=
  if negb (py_truthy results) then
    Return (error_result doc_id "Document not found")
  else
    doc ← py_getitem_0 results;
    id ← py_getitem_str doc (ID_COLUMN cfg);
    title ← py_get doc (TITLE_COLUMN cfg) (PStr "");
    content ← py_get doc (CONTENT_COLUMN cfg) (PStr "");
    Return (<["content" := content]>
              (<["title" := title]> (<["id" := PStr (py_str id)]> ∅))).

(** The [try] block of [fetch_document] (lines 96-124). *)
Definition fetch_document_body (doc_id : string)
  : outcome (gmap string pyval) :=
  response ← net (fetch_request doc_id);
  _ ← raise_for_status response;
  results ← json response;
  fetch_row doc_id results.

Definition fetch_document (doc_id : string) : outcome (gmap string pyval) :=
  try_except (fetch_document_body doc_id)
    (fun e =>
       if is_RequestException e then
         Return (error_result doc_id ("Request failed: " +:+ exn_str e))
       else
         Return (error_result doc_id ("Fetch error: " +:+ exn_str e))).
End Connector.

(** ** The tools (lines 143-175) *)

(** [search(query)] on the module-level connector. *)
Definition search (cfg : Config) (net : network) (query : string)
  : outcome (gmap string (list string)) :=
  doc_ids ← search_documents cfg (connector_init cfg) net query;
  Return {["ids" := doc_ids]}.

(** [fetch(id)] on the module-level connector. *)
Definition fetch (cfg : Config) (net : network) (id : string)
  : outcome (gmap string pyval) :=
  result ← fetch_document cfg (connector_init cfg) net id;
  Return result.

(** ** The tunnel settings and command (lines 29-30, 180-182) *)

Definition ascii_lower (c : ascii) : ascii :=
  let n := N_of_ascii c in
  if ((65 <=? n) && (n <=? 90))%N then ascii_of_N (n + 32) else c.

(** [s.lower()] on ASCII text (no other character lowers to a letter
    of [true], which is all line 29 compares with). *)
Fixpoint str_lower (s : string) : string :=
  match s with
  | EmptyString => EmptyString
  | String c s' => String (ascii_lower c) (str_lower s')
  end.

(** [USE_LOCALTUNNEL] (line 29). *)
Definition USE_LOCALTUNNEL (env : gmap string string) : bool :=
  String.eqb (str_lower (getenv env "USE_LOCALTUNNEL" "false")) "true".

(** [LOCALTUNNEL_SUBDOMAIN] (line 30). *)
Definition LOCALTUNNEL_SUBDOMAIN (env : gmap string string) : option string :=
  env !! "LOCALTUNNEL_SUBDOMAIN".

(** [cmd] as [start_localtunnel] builds it (lines 180-182). *)
Definition tunnel_command (subdomain : option string) : list string :=
  let cmd := ["npx"; "localtunnel"; "--port"; "8000"] in
  match subdomain with
  | Some s => if String.eqb s "" then cmd else cmd ++ ["--subdomain"; s]
  | None => cmd
  end.

(** * Vocabulary of the properties *)

(** ** The situations the properties speak of *)

(** The part of a text before its first [sep] (the whole text when
    [sep] does not occur). *)
Fixpoint str_before (sep : ascii) (s : string) : string :=
  match s with
  | EmptyString => EmptyString
  | String c s' =>
      if Ascii.eqb c sep then EmptyString else String c (str_before sep s')
  end.

(** The filter [search_documents] means to send: the or-list of the
    per-column predicates. *)
Definition full_filter (cfg : Config) (query : string) : string :=
  "(" +:+ str_join "," (map (ilike_condition query) (SEARCH_COLUMNS cfg))
      +:+ ")".

(** The dict of a successful fetch (lines 120-124). *)
Definition row_result (id : string) (title content : pyval)
  : gmap string pyval :=
  <["content" := content]> (<["title" := title]> (<["id" := PStr id]> ∅)).

(** Characters the filter syntax gives a meaning to (spec, 4.1). *)
Definition filter_special (c : ascii) : bool :=
  bool_decide (c ∈ ["," ; "(" ; ")" ; "%"]%char).

(** The query has such a character. *)
Definition has_filter_special (query : string) : bool :=
  existsb filter_special (list_ascii_of_string query).

(** The members of an or-list [(m1,m2,...)] read the way the filter
    syntax separates them: at the commas between the parentheses. *)
Definition or_members (v : string) : list string :=
  str_split "," (substring 1 (String.length v - 2) v).

(** A row carries the column: it is a JSON object with that member. *)
Definition has_column (column : string) (row : pyval) : bool :=
  match row with
  | PDict d => bool_decide (is_Some (dict_lookup column d))
  | _ => false
  end.

(** The body the connector expects: a JSON array of rows that carry
    the id column. *)
Definition well_formed_body (cfg : Config) (v : pyval) : bool :=
  match v with
  | PList rows => forallb (has_column (ID_COLUMN cfg)) rows
  | _ => false
  end.

(** The decoded body is not what the connector expects: the decoder
    raised, or the value is not an array of rows with the id column. *)
Definition malformed_body (cfg : Config) (r : Response) : Prop :=
  (exists e, json r = Raise e)
  \/ (exists v, json r = Return v /\ well_formed_body cfg v = false).

(** The three failures of a search call: the request raises, the
    response has a 4xx or 5xx status, or its body is malformed. *)
Definition search_failure (cfg : Config) (net : network) (request : Request)
  : Prop :=
  (exists e, net request = Raise e)
  \/ (exists r, net request = Return r /\ 400 <= status_code r < 600)
  \/ (exists r, net request = Return r /\ malformed_body cfg r).

(** A request-level failure: [requests.get] raises a RequestException
    (connection failure, timeout), or the status is 4xx or 5xx. *)
Definition request_level_failure (net : network) (request : Request) : Prop :=
  (exists e, net request = Raise e /\ is_RequestException e = true)
  \/ (exists r, net request = Return r /\ 400 <= status_code r < 600).

(** An unexpected failure: anything else that is raised, by the call,
    by the decoder or while the decoded body is read. *)
Definition unexpected_failure (cfg : Config) (net : network)
    (request : Request) (doc_id : string) : Prop :=
  (exists e, net request = Raise e /\ is_RequestException e = false)
  \/ (exists r, net request = Return r /\ raise_for_status r = Return tt
        /\ ((exists e, json r = Raise e /\ is_RequestException e = false)
            \/ (exists v e, json r = Return v
                  /\ fetch_row cfg doc_id v = Raise e))).

(** The body is not JSON and the decoder says so with a
    RequestException: [response.json()] of requests raises its own
    [requests.exceptions.JSONDecodeError], a subclass of
    RequestException. *)
Definition decoder_request_failure (net : network) (request : Request)
  : Prop :=
  exists r e, net request = Return r /\ raise_for_status r = Return tt
              /\ json r = Raise e /\ is_RequestException e = true.

(** ** A sample deployment and sample backing APIs *)

Definition sample_env : gmap string string :=
  <["SUPABASE_ANON_KEY" := "anon-key"]>
    (<["SUPABASE_URL" := "https://kb.example.co"]> ∅).

Definition sample_cfg : Config :=
  {| SUPABASE_URL := "https://kb.example.co";
     SUPABASE_ANON_KEY := "anon-key";
     SUPABASE_TABLE := "documents";
     SEARCH_COLUMNS := ["title"; "content"];
     ID_COLUMN := "id";
     TITLE_COLUMN := "title";
     CONTENT_COLUMN := "content";
     REQUEST_TIMEOUT := 30 |}.

(** Both required settings present, the base URL empty. *)
Definition empty_url_env : gmap string string :=
  <["SUPABASE_ANON_KEY" := "anon-key"]> (<["SUPABASE_URL" := ""]> ∅).

(** Both required settings present, the timeout not a number. *)
Definition bad_timeout_env : gmap string string :=
  <["REQUEST_TIMEOUT" := "soon"]> sample_env.

(** A backing API that answers every request with the given status and
    decoded body. *)
Definition answering (status : Z) (body : outcome pyval) : network :=
  fun request =>
    Return {| status_code := status;
              reason := "";
              resp_url := req_url request;
              json := body |}.

(** A backing API that cannot be reached. *)
Definition unreachable : network :=
  fun _ => Raise (Exn RequestException "Connection refused").

(** What [response.json()] of requests raises on a body that is not
    JSON. *)
Definition json_decode_error : exn :=
  Exn RequestException "Expecting value: line 1 column 1 (char 0)".

(** A backing API that answers 200 with a body that is not JSON. *)
Definition not_json : network := answering 200 (Raise json_decode_error).

(** A backing API whose connection fails with the given exception. *)
Definition failing_with (e : exn) : network := fun _ => Raise e.

(** A backing API that answers with status 300 and a body of rows. *)
Definition multiple_choices (rows : list pyval) : network :=
  answering 300 (Return (PList rows)).

(** * Properties *)

(** ** Outcomes *)

Lemma bind_Return {A B} (f : A -> outcome B) (a : A) :
  (Return a ≫= f) = f a.
Proof. reflexivity. Qed.

Lemma bind_Raise {A B} (f : A -> outcome B) (e : exn) :
  (Raise e ≫= f) = Raise e.
Proof. reflexivity. Qed.

Lemma comprehension_all {A B} (f : A -> outcome B) xs ys :
  Forall2 (fun x y => f x = Return y) xs ys ->
  comprehension f xs = Return ys.
Proof.
  induction 1 as [|x y xs ys Hx _ IH]; simpl; [done|].
  by rewrite Hx, bind_Return, IH.
Qed.

Lemma comprehension_raises {A B} (f : A -> outcome B) xs :
  Exists (fun x => exists e, f x = Raise e) xs ->
  exists e, comprehension f xs = Raise e.
Proof.
  induction 1 as [x xs [e He]|x xs _ [e IH]]; simpl.
  - rewrite He. by exists e.
  - destruct (f x) as [y|e']; simpl; [|by exists e'].
    rewrite IH. by exists e.
Qed.

Lemma forallb_false_Exists {A} (f : A -> bool) xs :
  forallb f xs = false -> Exists (fun x => f x = false) xs.
Proof.
  induction xs as [|x xs IH]; simpl; [done|].
  destruct (f x) eqn:E; simpl; [|by left].
  intros H. right. by apply IH.
Qed.

(** ** Strings *)

Lemma str_split_nonempty sep s : str_split sep s <> [].
Proof.
  destruct s as [|c s]; simpl; [done|].
  destruct (Ascii.eqb c sep); [done|]. by destruct (str_split sep s).
Qed.

Lemma str_split_absent sep s :
  str_contains sep s = false -> str_split sep s = [s].
Proof.
  induction s as [|c s IH]; simpl; [done|].
  destruct (Ascii.eqb c sep); simpl; [done|].
  intros H. by rewrite (IH H).
Qed.

Lemma str_contains_app c s t :
  str_contains c (s +:+ t) = str_contains c s || str_contains c t.
Proof.
  induction s as [|c' s IH]; simpl; [done|].
  by rewrite IH, orb_assoc.
Qed.

Lemma str_contains_join c sep xs :
  str_contains c sep = false ->
  Forall (fun x => str_contains c x = false) xs ->
  str_contains c (str_join sep xs) = false.
Proof.
  intros Hsep. unfold str_join.
  induction 1 as [|x xs Hx Hxs IH]; simpl; [done|].
  destruct xs as [|y xs]; [done|].
  by rewrite !str_contains_app, Hx, Hsep, IH.
Qed.

(** ** The search request *)

Section SearchRequest.
Context (cfg : Config) (self : SupabaseConnector).

Lemma filter_param_split query :
  exists v rest,
    str_split "=" (filter_param cfg query) = "or" :: v :: rest.
Proof.
  unfold filter_param.
  set (tail := (_ +:+ ")")).
  change ("or=(" +:+ tail) with
    (String "o" (String "r" (String "=" (String "(" tail)))).
  cbn [str_split Ascii.eqb Bool.eqb].
  destruct (str_split "=" tail) as [|x xs] eqn:E.
  - by apply str_split_nonempty in E.
  - by exists (String "(" x), xs.
Qed.

(** The request is always built: line 69 never raises. *)
Lemma search_request_total query :
  exists v, search_request cfg self query =
    Return {| req_url := base_url self +:+ "/" +:+ SUPABASE_TABLE cfg;
              req_headers := headers self;
              req_params := <["or" := v]> (<["select" := ID_COLUMN cfg]> ∅);
              req_timeout := REQUEST_TIMEOUT cfg |}.
Proof.
  destruct (filter_param_split query) as (v & rest & E).
  exists v. unfold search_request. by rewrite E.
Qed.

Lemma ilike_condition_no_eq query column :
  str_contains "=" query = false ->
  str_contains "=" column = false ->
  str_contains "=" (ilike_condition query column) = false.
Proof.
  intros Hq Hc. unfold ilike_condition.
  by rewrite !str_contains_app, Hq, Hc.
Qed.
End SearchRequest.

(** ** The sample deployment *)

Lemma load_sample_env : load_config sample_env = Return sample_cfg.
Proof. vm_compute. reflexivity. Qed.

(** ** Search: how the query reaches the filter *)

Section SearchFilter.
Context (cfg : Config) (self : SupabaseConnector).

(** C1 (as the code has it): the query is copied into every
    per-column predicate exactly as given, with no escaping; for a
    query and column names free of [=] the [or] parameter sent is
    [(c1.ilike.%query%,...,cn.ilike.%query%)]. *)
Theorem search_request_verbatim (query : string) :
  str_contains "=" query = false ->
  Forall (fun column => str_contains "=" column = false) (SEARCH_COLUMNS cfg) ->
  search_request cfg self query =
    Return {| req_url := base_url self +:+ "/" +:+ SUPABASE_TABLE cfg;
              req_headers := headers self;
              req_params :=
                <["or" := "(" +:+
                    str_join ","
                      (map (fun column => column +:+ ".ilike.%" +:+ query +:+ "%")
                           (SEARCH_COLUMNS cfg)) +:+ ")"]>
                  (<["select" := ID_COLUMN cfg]> ∅);
              req_timeout := REQUEST_TIMEOUT cfg |}.
Proof.
  intros Hq Hcols.
  assert (str_split "=" (filter_param cfg query) =
          ["or"; "(" +:+ str_join "," (map (ilike_condition query)
                                         (SEARCH_COLUMNS cfg)) +:+ ")"]) as E.
  { unfold filter_param.
    set (tail := (_ +:+ ")")).
    change ("or=(" +:+ tail) with
      (String "o" (String "r" (String "=" (String "(" tail)))).
    cbn [str_split Ascii.eqb Bool.eqb].
    rewrite (str_split_absent "=" tail); [done|].
    subst tail. rewrite str_contains_app.
    rewrite str_contains_join; [done..|].
    apply Forall_map. eapply Forall_impl; [exact Hcols|].
    intros column Hc. by apply ilike_condition_no_eq. }
  unfold search_request. by rewrite E.
Qed.
End SearchFilter.

Lemma search_request_verbatim_witness :
  search_request sample_cfg (connector_init sample_cfg) "a,b" =
    Return {| req_url := "https://kb.example.co/rest/v1/documents";
              req_headers := headers (connector_init sample_cfg);
              req_params :=
                <["or" := "(title.ilike.%a,b%,content.ilike.%a,b%)"]>
                  (<["select" := "id"]> ∅);
              req_timeout := 30 |}.
Proof.
  apply (search_request_verbatim sample_cfg (connector_init sample_cfg) "a,b").
  - reflexivity.
  - repeat constructor.
Defined.

(** C1 (as stated) fails: for [search("a,b")] the comma is sent as it
    is, so the or-list that should hold one predicate per search column
    reads as four members, none of which is a predicate on the text
    [a,b]. *)
Lemma search_query_not_escaped :
  has_filter_special "a,b" = true
  /\ exists request v,
    search_request sample_cfg (connector_init sample_cfg) "a,b" = Return request
    /\ req_params request !! "or" = Some v
    /\ v = "(title.ilike.%a,b%,content.ilike.%a,b%)"
    /\ or_members v = ["title.ilike.%a"; "b%"; "content.ilike.%a"; "b%"]
    /\ length (or_members v) <> length (SEARCH_COLUMNS sample_cfg).
Proof.
  split; [reflexivity|].
  eexists _, _. split; [reflexivity|].
  split; [reflexivity|]. split; [reflexivity|].
  split; [reflexivity|]. simpl. lia.
Qed.

(** The slip of line 69: the filter is cut at the first [=] of the
    query, because [filter_param] is split at every [=]. *)
Example search_request_cut_at_eq :
  req_params <$>
    (match search_request sample_cfg (connector_init sample_cfg) "a=b" with
     | Return request => Some request
     | Raise _ => None
     end)
  = Some (<["or" := "(title.ilike.%a"]> (<["select" := "id"]> ∅)).
Proof. reflexivity. Qed.

(** ** Status check *)

Lemma raise_for_status_2xx r :
  200 <= status_code r < 300 -> raise_for_status r = Return tt.
Proof.
  intros H. unfold raise_for_status.
  replace (400 <=? status_code r) with false by lia.
  replace (500 <=? status_code r) with false by lia.
  reflexivity.
Qed.

Lemma raise_for_status_error r :
  400 <= status_code r < 600 ->
  exists msg, raise_for_status r = Raise (Exn RequestException msg).
Proof.
  intros H. unfold raise_for_status.
  destruct (Z.ltb_spec (status_code r) 500).
  - replace (400 <=? status_code r) with true by lia. simpl. eauto.
  - replace (400 <=? status_code r) with true by lia.
    replace (500 <=? status_code r) with true by lia.
    replace (status_code r <? 600) with true by lia. simpl. eauto.
Qed.

(** ** Search: normalisation of the response *)

Section SearchResponse.
Context (cfg : Config).

Let id_of (doc : pyval) : outcome string :=
  v ← py_getitem_str doc (ID_COLUMN cfg); Return (py_str v).

Lemma id_of_missing doc :
  has_column (ID_COLUMN cfg) doc = false -> exists e, id_of doc = Raise e.
Proof.
  unfold id_of. destruct doc as [| | | | |l|d]; simpl; eauto.
  destruct (dict_lookup _ d) as [x|]; simpl; eauto.
  intros H. discriminate H.
Qed.

(** A body of any other shape gives no ids or an exception. *)
Lemma search_ids_malformed v :
  well_formed_body cfg v = false ->
  search_ids cfg v = Return [] \/ exists e, search_ids cfg v = Raise e.
Proof.
  unfold search_ids. fold id_of.
  destruct v as [| | | |s|rows|d]; simpl; eauto.
  - destruct s; simpl; eauto.
  - intros H. right. apply comprehension_raises.
    apply forallb_false_Exists in H.
    eapply Exists_impl; [exact H|]. apply id_of_missing.
  - destruct d as [|[k x] d]; simpl; eauto.
Qed.

Lemma search_ids_rows rows ids :
  Forall2 (fun row id => py_getitem_str row (ID_COLUMN cfg) = Return id)
          rows ids ->
  search_ids cfg (PList rows) = Return (map py_str ids).
Proof.
  intros H. unfold search_ids. simpl.
  apply comprehension_all. apply Forall2_fmap_r.
  eapply Forall2_impl; [exact H|].
  intros row id Hrow. simpl. by rewrite Hrow.
Qed.
End SearchResponse.

(** ** Search: results and failures *)

Section SearchTheorems.
Context (cfg : Config) (net : network).

Lemma search_documents_handled self query :
  search_documents cfg self net query =
    match search_documents_body cfg self net query with
    | Return ids => Return ids
    | Raise _ => Return []
    end.
Proof.
  unfold search_documents, try_except.
  destruct (search_documents_body cfg self net query) as [ids|e]; [done|].
  by destruct (is_RequestException e).
Qed.

(** No exception leaves [search_documents] or [search]. *)
Lemma search_documents_never_raises self query :
  exists ids, search_documents cfg self net query = Return ids.
Proof.
  rewrite search_documents_handled.
  destruct (search_documents_body cfg self net query); eauto.
Qed.

Lemma search_never_raises query :
  exists ids, search cfg net query = Return {["ids" := ids]}.
Proof.
  unfold search.
  destruct (search_documents_never_raises (connector_init cfg) query)
    as [ids ->].
  by exists ids.
Qed.

Lemma search_documents_failure self query request :
  search_request cfg self query = Return request ->
  search_failure cfg net request ->
  search_documents cfg self net query = Return [].
Proof.
  intros Hreq Hfail. rewrite search_documents_handled.
  unfold search_documents_body. rewrite Hreq, bind_Return.
  destruct Hfail as [[e ->]|[(r & -> & Hst)|(r & -> & Hbody)]]; simpl.
  - done.
  - destruct (raise_for_status_error r Hst) as [msg ->]. done.
  - destruct (raise_for_status r) as [[]|e]; simpl; [|done].
    destruct Hbody as [[e ->]|(v & -> & Hv)]; simpl; [done|].
    by destruct (search_ids_malformed cfg v Hv) as [->|[e ->]].
Qed.

(** C2 (as the code has it): if the request raises, the response has a
    4xx or 5xx status, or the body is malformed, [search_documents]
    returns the empty list and raises nothing; an unreachable backing
    API gives [search(q) == {ids: []}] for every [q]. *)
Theorem search_fail_soft query :
  (forall request,
     search_request cfg (connector_init cfg) query = Return request ->
     search_failure cfg net request ->
     search_documents cfg (connector_init cfg) net query = Return []
     /\ search cfg net query = Return {["ids" := []]})
  /\ ((forall request, exists e, net request = Raise e) ->
      search cfg net query = Return {["ids" := []]}).
Proof.
  split.
  - intros request Hreq Hfail.
    pose proof (search_documents_failure _ _ _ Hreq Hfail) as E.
    split; [exact E|]. unfold search. by rewrite E.
  - intros Hdown.
    destruct (search_request_total cfg (connector_init cfg) query) as [v Hreq].
    unfold search.
    rewrite (search_documents_failure _ _ _ Hreq); [done|].
    left. apply Hdown.
Qed.

(** C7: on a 2xx response whose body is a JSON array,
    [search_documents] returns the id column of every row, each passed
    through [str], in the order of the response, and [search] returns
    that list under the one key [ids]. *)
Theorem search_returns_ids query request response rows ids :
  search_request cfg (connector_init cfg) query = Return request ->
  net request = Return response ->
  200 <= status_code response < 300 ->
  json response = Return (PList rows) ->
  Forall2 (fun row id => py_getitem_str row (ID_COLUMN cfg) = Return id)
          rows ids ->
  search_documents cfg (connector_init cfg) net query
    = Return (map py_str ids)
  /\ search cfg net query = Return {["ids" := map py_str ids]}.
Proof.
  intros Hreq Hnet Hst Hjson Hrows.
  assert (search_documents cfg (connector_init cfg) net query
          = Return (map py_str ids)) as E.
  { rewrite search_documents_handled. unfold search_documents_body.
    rewrite Hreq, bind_Return, Hnet, bind_Return.
    rewrite (raise_for_status_2xx _ Hst), bind_Return, Hjson, bind_Return.
    by rewrite (search_ids_rows cfg rows ids Hrows). }
  split; [exact E|]. unfold search. by rewrite E.
Qed.

(** C9: on a 2xx response whose body is a JSON array, one row without
    the id column empties the whole result: no partial list of the ids
    of the other rows is returned. *)
Theorem search_one_bad_row_empties query request response rows :
  search_request cfg (connector_init cfg) query = Return request ->
  net request = Return response ->
  200 <= status_code response < 300 ->
  json response = Return (PList rows) ->
  Exists (fun row => exists d, row = PDict d
                               /\ dict_lookup (ID_COLUMN cfg) d = None) rows ->
  search_documents cfg (connector_init cfg) net query = Return [].
Proof.
  intros Hreq Hnet Hst Hjson Hbad.
  apply (search_documents_failure _ _ request Hreq).
  right; right. exists response. split; [exact Hnet|].
  right. exists (PList rows). split; [exact Hjson|]. simpl.
  apply not_true_is_false. intros Hall.
  rewrite forallb_forall in Hall.
  apply Exists_exists in Hbad. destruct Hbad as (row & Hin & d & -> & Hd).
  apply list_elem_of_In in Hin. specialize (Hall _ Hin).
  simpl in Hall. rewrite Hd in Hall. discriminate Hall.
Qed.
End SearchTheorems.

Lemma search_fail_soft_witness :
  search_documents sample_cfg (connector_init sample_cfg)
                   (answering 503 (Return (PList []))) "cats" = Return []
  /\ search sample_cfg unreachable "cats" = Return {["ids" := []]}.
Proof.
  split.
  - refine (proj1 (proj1 (search_fail_soft sample_cfg
                            (answering 503 (Return (PList []))) "cats")
                         _ eq_refl _)).
    right; left. eexists. split; [reflexivity|]. simpl. lia.
  - apply (proj2 (search_fail_soft sample_cfg unreachable "cats")).
    intros request. eexists. reflexivity.
Defined.

(** C2 (as stated) fails: a status outside 2xx that [raise_for_status]
    lets through (here 300) with a body of rows gives their ids, not
    the empty list. *)
Lemma search_non_2xx_returns_ids :
  (forall request, exists r,
      multiple_choices [PDict [("id", PInt 1)]] request = Return r
      /\ ~ (200 <= status_code r < 300))
  /\ search_documents sample_cfg (connector_init sample_cfg)
       (multiple_choices [PDict [("id", PInt 1)]]) "cats" = Return ["1"]
  /\ search sample_cfg (multiple_choices [PDict [("id", PInt 1)]]) "cats"
     = Return {["ids" := ["1"]]}.
Proof.
  split; [|split; reflexivity].
  intros request. eexists. split; [reflexivity|]. simpl. lia.
Qed.

Lemma search_returns_ids_witness :
  search_documents sample_cfg (connector_init sample_cfg)
    (answering 200 (Return (PList [PDict [("id", PInt 7)];
                                   PDict [("id", PStr "x")]]))) "cats"
    = Return ["7"; "x"]
  /\ search sample_cfg
       (answering 200 (Return (PList [PDict [("id", PInt 7)];
                                      PDict [("id", PStr "x")]]))) "cats"
     = Return {["ids" := ["7"; "x"]]}.
Proof.
  eapply (search_returns_ids sample_cfg _ "cats" _ _
            [PDict [("id", PInt 7)]; PDict [("id", PStr "x")]]
            [PInt 7; PStr "x"]).
  - reflexivity.
  - reflexivity.
  - simpl. lia.
  - reflexivity.
  - repeat constructor.
Defined.

Lemma search_one_bad_row_empties_witness :
  search_documents sample_cfg (connector_init sample_cfg)
    (answering 200 (Return (PList [PDict [("id", PInt 7)];
                                   PDict [("title", PStr "t")]]))) "cats"
    = Return [].
Proof.
  eapply (search_one_bad_row_empties sample_cfg _ "cats" _ _
            [PDict [("id", PInt 7)]; PDict [("title", PStr "t")]]).
  - reflexivity.
  - reflexivity.
  - simpl. lia.
  - reflexivity.
  - right. left. eexists. split; reflexivity.
Defined.

(** ** Fetch: results and failures *)

Lemma str_app_nonempty s t : s <> "" -> s +:+ t <> "".
Proof. by destruct s. Qed.

Lemma error_result_lookup doc_id error :
  error_result doc_id error !! "id" = Some (PStr doc_id)
  /\ error_result doc_id error !! "title" = Some (PStr "")
  /\ error_result doc_id error !! "content" = Some (PStr "")
  /\ error_result doc_id error !! "error" = Some (PStr error).
Proof. unfold error_result. by repeat split. Qed.

Lemma error_result_inj doc_id error error' :
  error_result doc_id error = error_result doc_id error' -> error = error'.
Proof.
  intros E.
  destruct (error_result_lookup doc_id error) as (_ & _ & _ & H).
  destruct (error_result_lookup doc_id error') as (_ & _ & _ & H').
  rewrite E in H. congruence.
Qed.

Section FetchTheorems.
Context (cfg : Config) (self : SupabaseConnector) (net : network).

Lemma fetch_document_handled doc_id :
  fetch_document cfg self net doc_id =
    match fetch_document_body cfg self net doc_id with
    | Return result => Return result
    | Raise e =>
        Return (error_result doc_id
                  ((if is_RequestException e then "Request failed: "
                    else "Fetch error: ") +:+ exn_str e))
    end.
Proof.
  unfold fetch_document, try_except.
  destruct (fetch_document_body cfg self net doc_id) as [result|e]; [done|].
  by destruct (is_RequestException e).
Qed.

(** No exception leaves [fetch_document]. *)
Lemma fetch_document_never_raises doc_id :
  exists result, fetch_document cfg self net doc_id = Return result.
Proof.
  rewrite fetch_document_handled.
  destruct (fetch_document_body cfg self net doc_id); eauto.
Qed.

(** Reading the decoded body never raises a RequestException. *)
Lemma fetch_row_exception doc_id results e :
  fetch_row cfg doc_id results = Raise e -> is_RequestException e = false.
Proof.
  unfold fetch_row, py_getitem_0, list_getitem, py_getitem_str, py_get.
  intros H.
  repeat (case_match; simplify_eq/=); done.
Qed.

Lemma fetch_document_request_failure doc_id :
  request_level_failure net (fetch_request cfg self doc_id) ->
  exists msg,
    fetch_document cfg self net doc_id
    = Return (error_result doc_id ("Request failed: " +:+ msg)).
Proof.
  intros [(e & He & Hcls)|(r & Hr & Hst)];
    rewrite fetch_document_handled; unfold fetch_document_body.
  - rewrite He. simpl. rewrite Hcls. eauto.
  - rewrite Hr. simpl.
    destruct (raise_for_status_error r Hst) as [msg ->]. simpl. eauto.
Qed.

Lemma fetch_document_unexpected_failure doc_id :
  unexpected_failure cfg net (fetch_request cfg self doc_id) doc_id ->
  exists msg,
    fetch_document cfg self net doc_id
    = Return (error_result doc_id ("Fetch error: " +:+ msg)).
Proof.
  intros [(e & He & Hcls)|(r & Hr & Hst & Hbody)];
    rewrite fetch_document_handled; unfold fetch_document_body.
  - rewrite He. simpl. rewrite Hcls. eauto.
  - rewrite Hr. simpl. rewrite Hst. simpl.
    destruct Hbody as [(e & -> & Hcls)|(v & e & -> & Hrow)]; simpl.
    + rewrite Hcls. eauto.
    + rewrite Hrow, (fetch_row_exception _ _ _ Hrow). eauto.
Qed.

Lemma fetch_document_decoder_failure doc_id :
  decoder_request_failure net (fetch_request cfg self doc_id) ->
  exists msg,
    fetch_document cfg self net doc_id
    = Return (error_result doc_id ("Request failed: " +:+ msg)).
Proof.
  intros (r & e & Hr & Hst & Hjson & Hcls).
  rewrite fetch_document_handled. unfold fetch_document_body.
  rewrite Hr, bind_Return, Hst, bind_Return, Hjson. simpl.
  rewrite Hcls. eauto.
Qed.

(** A request that raises, or a 4xx or 5xx status, ends in one of the
    two handlers. *)
Lemma fetch_document_transport_failure doc_id :
  (exists e, net (fetch_request cfg self doc_id) = Raise e)
  \/ (exists r, net (fetch_request cfg self doc_id) = Return r
                /\ 400 <= status_code r < 600) ->
  exists msg,
    fetch_document cfg self net doc_id
    = Return (error_result doc_id ("Request failed: " +:+ msg))
    \/ fetch_document cfg self net doc_id
       = Return (error_result doc_id ("Fetch error: " +:+ msg)).
Proof.
  intros [[e He]|H].
  - destruct (is_RequestException e) eqn:Hcls.
    + destruct (fetch_document_request_failure doc_id) as [msg E];
        [left; eauto|]. eauto.
    + destruct (fetch_document_unexpected_failure doc_id) as [msg E];
        [left; eauto|]. eauto.
  - destruct (fetch_document_request_failure doc_id) as [msg E];
      [by right|]. eauto.
Qed.
End FetchTheorems.

(** [fetch] returns what [fetch_document] returns. *)
Lemma fetch_forwards cfg net id :
  fetch cfg net id = fetch_document cfg (connector_init cfg) net id.
Proof.
  unfold fetch. by destruct (fetch_document cfg (connector_init cfg) net id).
Qed.

(** Runs [fetch_document] up to the decoded body of a 2xx response. *)
Ltac fetch_to_body Hnet Hst Hjson :=
  rewrite fetch_document_handled; unfold fetch_document_body;
  rewrite Hnet, bind_Return, (raise_for_status_2xx _ Hst), bind_Return,
    Hjson, bind_Return.

Section FetchClaims.
Context (cfg : Config) (self : SupabaseConnector) (net : network).

(** C3 (as the code has it): if the request raises or the response has
    a 4xx or 5xx status, [fetch_document] returns the caller's id with
    empty title and content and a non-empty error, and raises
    nothing. *)
Theorem fetch_fail_soft doc_id :
  (exists e, net (fetch_request cfg self doc_id) = Raise e)
  \/ (exists r, net (fetch_request cfg self doc_id) = Return r
                /\ 400 <= status_code r < 600) ->
  exists error,
    error <> ""
    /\ fetch_document cfg self net doc_id = Return (error_result doc_id error)
    /\ error_result doc_id error !! "id" = Some (PStr doc_id)
    /\ error_result doc_id error !! "title" = Some (PStr "")
    /\ error_result doc_id error !! "content" = Some (PStr "")
    /\ error_result doc_id error !! "error" = Some (PStr error).
Proof.
  intros H.
  assert (exists error, error <> "" /\
            fetch_document cfg self net doc_id
            = Return (error_result doc_id error)) as (error & Hne & E).
  { destruct H as [[e He]|H].
    - destruct (is_RequestException e) eqn:Hcls.
      + destruct (fetch_document_request_failure cfg self net doc_id)
          as [msg ->]; [left; eauto|].
        eexists. split; [|reflexivity]. by apply str_app_nonempty.
      + destruct (fetch_document_unexpected_failure cfg self net doc_id)
          as [msg ->]; [left; eauto|].
        eexists. split; [|reflexivity]. by apply str_app_nonempty.
    - destruct (fetch_document_request_failure cfg self net doc_id)
        as [msg ->]; [by right|].
      eexists. split; [|reflexivity]. by apply str_app_nonempty. }
  exists error. split; [exact Hne|]. split; [exact E|].
  apply error_result_lookup.
Qed.

(** C4 (as the code has it): on a 2xx response whose body is the empty
    JSON array, [fetch_document] returns exactly the caller's id,
    empty title and content, and the error [Document not found]; a
    call whose request raises or whose status is 4xx or 5xx (taken on
    a second backing API [net']) never returns that error, so its
    result differs from the not-found result. *)
Theorem fetch_not_found (net' : network) doc_id response :
  net (fetch_request cfg self doc_id) = Return response ->
  200 <= status_code response < 300 ->
  json response = Return (PList []) ->
  (exists e, net' (fetch_request cfg self doc_id) = Raise e)
  \/ (exists r, net' (fetch_request cfg self doc_id) = Return r
                /\ 400 <= status_code r < 600) ->
  fetch_document cfg self net doc_id
    = Return (error_result doc_id "Document not found")
  /\ exists error,
       fetch_document cfg self net' doc_id
       = Return (error_result doc_id error)
       /\ error <> "Document not found"
       /\ fetch_document cfg self net' doc_id
          <> fetch_document cfg self net doc_id.
Proof.
  intros Hnet Hst Hjson Hfail.
  assert (fetch_document cfg self net doc_id
          = Return (error_result doc_id "Document not found")) as E.
  { by fetch_to_body Hnet Hst Hjson. }
  split; [exact E|]. rewrite E.
  destruct (fetch_document_transport_failure cfg self net' doc_id Hfail)
    as [msg [E'|E']]; rewrite E'; eexists; (split; [reflexivity|]);
    (split; [done|]); intros H;
    match type of H with
    | Return ?a = Return ?b =>
        assert (a = b) as H' by congruence; by apply error_result_inj in H'
    end.
Qed.

(** What [fetch_document] returns for a first row that carries the id
    column: the other rows are ignored, and a title or content member
    that is present is returned as it is. *)
Lemma fetch_first_row doc_id response d rest id :
  net (fetch_request cfg self doc_id) = Return response ->
  200 <= status_code response < 300 ->
  json response = Return (PList (PDict d :: rest)) ->
  dict_lookup (ID_COLUMN cfg) d = Some id ->
  fetch_document cfg self net doc_id
    = Return (<["content" := default (PStr "")
                               (dict_lookup (CONTENT_COLUMN cfg) d)]>
                (<["title" := default (PStr "")
                                (dict_lookup (TITLE_COLUMN cfg) d)]>
                   (<["id" := PStr (py_str id)]> ∅))).
Proof.
  intros Hnet Hst Hjson Hid.
  fetch_to_body Hnet Hst Hjson. unfold fetch_row. simpl. rewrite Hid. simpl.
  by destruct (dict_lookup (TITLE_COLUMN cfg) d),
              (dict_lookup (CONTENT_COLUMN cfg) d).
Qed.

(** C6 (as the code has it): what the first handler catches (a
    request that raises a RequestException, a 4xx or 5xx status, and
    a body the decoder rejects with its RequestException) is described
    as [Request failed: ...]; every other failure (an exception of
    another class, a decoded body of unexpected shape) as
    [Fetch error: ...]; the two descriptions are never equal, both are
    non-empty, both come with the caller's id and empty title and
    content, and neither is raised.  The two failures are taken on two
    backing APIs [net] and [net']. *)
Theorem fetch_failure_descriptions (net' : network) doc_id :
  request_level_failure net (fetch_request cfg self doc_id)
  \/ decoder_request_failure net (fetch_request cfg self doc_id) ->
  unexpected_failure cfg net' (fetch_request cfg self doc_id) doc_id ->
  exists msg msg',
    fetch_document cfg self net doc_id
      = Return (error_result doc_id ("Request failed: " +:+ msg))
    /\ fetch_document cfg self net' doc_id
       = Return (error_result doc_id ("Fetch error: " +:+ msg'))
    /\ "Request failed: " +:+ msg <> "Fetch error: " +:+ msg'
    /\ "Request failed: " +:+ msg <> ""
    /\ "Fetch error: " +:+ msg' <> ""
    /\ fetch_document cfg self net doc_id
       <> fetch_document cfg self net' doc_id.
Proof.
  intros Hreq Hunexp.
  assert (exists msg,
            fetch_document cfg self net doc_id
            = Return (error_result doc_id ("Request failed: " +:+ msg)))
    as [msg E].
  { destruct Hreq as [Hreq|Hdec].
    - by apply fetch_document_request_failure.
    - by apply fetch_document_decoder_failure. }
  destruct (fetch_document_unexpected_failure cfg self net' doc_id Hunexp)
    as [msg' E'].
  exists msg, msg'. rewrite E, E'.
  repeat split; [done..|].
  intros H. assert (error_result doc_id ("Request failed: " +:+ msg)
                    = error_result doc_id ("Fetch error: " +:+ msg')) as H'
    by congruence.
  by apply error_result_inj in H'.
Qed.

(** C10: on a 2xx response whose first row has no id column,
    [fetch_document] raises nothing and returns the caller's id, empty
    title and content, and an error that begins with [Fetch error:]
    (followed by the text of the KeyError). *)
Theorem fetch_first_row_without_id doc_id response d rest :
  net (fetch_request cfg self doc_id) = Return response ->
  200 <= status_code response < 300 ->
  json response = Return (PList (PDict d :: rest)) ->
  dict_lookup (ID_COLUMN cfg) d = None ->
  fetch_document cfg self net doc_id
    = Return (error_result doc_id
                ("Fetch error: " +:+ str_repr (ID_COLUMN cfg))).
Proof.
  intros Hnet Hst Hjson Hid.
  fetch_to_body Hnet Hst Hjson. unfold fetch_row. simpl. by rewrite Hid.
Qed.
End FetchClaims.

Lemma fetch_fail_soft_witness :
  exists error,
    error <> ""
    /\ fetch_document sample_cfg (connector_init sample_cfg) unreachable "42"
       = Return (error_result "42" error)
    /\ error_result "42" error !! "id" = Some (PStr "42")
    /\ error_result "42" error !! "title" = Some (PStr "")
    /\ error_result "42" error !! "content" = Some (PStr "")
    /\ error_result "42" error !! "error" = Some (PStr error).
Proof.
  apply (fetch_fail_soft sample_cfg (connector_init sample_cfg) unreachable "42").
  left. eexists. reflexivity.
Defined.

(** C3 (as stated) fails: a status outside 2xx that [raise_for_status]
    lets through (here 300) with a body of rows gives the first row,
    with the id of the row and no error. *)
Lemma fetch_non_2xx_returns_row :
  (forall request, exists r,
      multiple_choices [PDict [("id", PInt 7); ("title", PStr "T");
                               ("content", PStr "C")]] request = Return r
      /\ ~ (200 <= status_code r < 300))
  /\ fetch_document sample_cfg (connector_init sample_cfg)
       (multiple_choices [PDict [("id", PInt 7); ("title", PStr "T");
                                 ("content", PStr "C")]]) "42"
     = Return (<["content" := PStr "C"]>
                 (<["title" := PStr "T"]> (<["id" := PStr "7"]> ∅)))
  /\ forall error,
       fetch_document sample_cfg (connector_init sample_cfg)
         (multiple_choices [PDict [("id", PInt 7); ("title", PStr "T");
                                   ("content", PStr "C")]]) "42"
       <> Return (error_result "42" error).
Proof.
  split; [|split].
  - intros request. eexists. split; [reflexivity|]. simpl. lia.
  - reflexivity.
  - intros error H.
    apply (f_equal (fun o => match o with
                             | Return m => m !! "id"
                             | Raise _ => None
                             end)) in H.
    discriminate H.
Qed.

Lemma fetch_not_found_witness :
  fetch_document sample_cfg (connector_init sample_cfg)
    (answering 200 (Return (PList []))) "42"
  = Return (error_result "42" "Document not found")
  /\ exists error,
       fetch_document sample_cfg (connector_init sample_cfg) unreachable "42"
       = Return (error_result "42" error)
       /\ error <> "Document not found"
       /\ fetch_document sample_cfg (connector_init sample_cfg) unreachable "42"
          <> fetch_document sample_cfg (connector_init sample_cfg)
               (answering 200 (Return (PList []))) "42".
Proof.
  eapply (fetch_not_found sample_cfg (connector_init sample_cfg)
            (answering 200 (Return (PList []))) unreachable "42").
  - reflexivity.
  - simpl. lia.
  - reflexivity.
  - left. eexists. reflexivity.
Defined.

(** C4 (as stated) fails for a status outside 2xx that
    [raise_for_status] lets through: status 300 with the empty array
    is answered [Document not found] too, exactly like a 200 without
    rows, so the error value does not set the not-found case apart
    from every non-2xx status. *)
Lemma fetch_not_found_on_non_2xx :
  (forall request, exists r,
      multiple_choices [] request = Return r
      /\ ~ (200 <= status_code r < 300))
  /\ fetch_document sample_cfg (connector_init sample_cfg)
       (multiple_choices []) "42"
     = Return (error_result "42" "Document not found")
  /\ fetch_document sample_cfg (connector_init sample_cfg)
       (multiple_choices []) "42"
     = fetch_document sample_cfg (connector_init sample_cfg)
         (answering 200 (Return (PList []))) "42".
Proof.
  split; [|split; reflexivity].
  intros request. eexists. split; [reflexivity|]. simpl. lia.
Qed.

(** C5 fails on the code for a null value: for the body
    [[{"id": 42, "title": null, "content": "Cats are great"}]] the
    title returned is [None], not the empty string ([doc.get] falls
    back to its default for a missing member only). *)
Theorem fetch_null_title_returned :
  fetch_document sample_cfg (connector_init sample_cfg)
    (answering 200
       (Return (PList [PDict [("id", PInt 42); ("title", PNone);
                              ("content", PStr "Cats are great")]]))) "42"
  = Return (<["content" := PStr "Cats are great"]>
              (<["title" := PNone]> (<["id" := PStr "42"]> ∅))).
Proof. reflexivity. Qed.

(** The rest of C5 holds: first row only, id through [str], a missing
    title or content becomes the empty string, no error member. *)
Example fetch_first_row_only :
  fetch_document sample_cfg (connector_init sample_cfg)
    (answering 200
       (Return (PList [PDict [("id", PInt 42); ("title", PStr "Cats")];
                       PDict [("id", PInt 43); ("title", PStr "Dogs");
                              ("content", PStr "Dogs too")]]))) "42"
  = Return (<["content" := PStr ""]>
              (<["title" := PStr "Cats"]> (<["id" := PStr "42"]> ∅))).
Proof. reflexivity. Qed.

Lemma fetch_failure_descriptions_witness :
  exists msg msg',
    fetch_document sample_cfg (connector_init sample_cfg) not_json "42"
      = Return (error_result "42" ("Request failed: " +:+ msg))
    /\ fetch_document sample_cfg (connector_init sample_cfg)
         (answering 200 (Return (PList [PDict [("title", PStr "Cats")]]))) "42"
       = Return (error_result "42" ("Fetch error: " +:+ msg'))
    /\ "Request failed: " +:+ msg <> "Fetch error: " +:+ msg'
    /\ "Request failed: " +:+ msg <> ""
    /\ "Fetch error: " +:+ msg' <> ""
    /\ fetch_document sample_cfg (connector_init sample_cfg) not_json "42"
       <> fetch_document sample_cfg (connector_init sample_cfg)
            (answering 200 (Return (PList [PDict [("title", PStr "Cats")]])))
            "42".
Proof.
  apply (fetch_failure_descriptions sample_cfg (connector_init sample_cfg)
           not_json
           (answering 200 (Return (PList [PDict [("title", PStr "Cats")]])))
           "42").
  - right. eexists _, _. repeat split; reflexivity.
  - right. eexists. split; [reflexivity|]. split; [reflexivity|].
    right. eexists _, _. split; reflexivity.
Defined.

(** C6 (as stated) fails for a parse failure: on a 200 response whose
    body is not JSON the decoder raises its RequestException, the
    first handler takes it, and the error reads [Request failed: ...]
    and not [Fetch error: ...]; a connection that fails with the same
    exception gives the very same result, so the description does not
    tell the parse failure from the request-level one. *)
Lemma fetch_parse_failure_reported_as_request_failure :
  fetch_document sample_cfg (connector_init sample_cfg) not_json "42"
  = Return (error_result "42"
              "Request failed: Expecting value: line 1 column 1 (char 0)")
  /\ (forall msg,
        fetch_document sample_cfg (connector_init sample_cfg) not_json "42"
        <> Return (error_result "42" ("Fetch error: " +:+ msg)))
  /\ fetch_document sample_cfg (connector_init sample_cfg) not_json "42"
     = fetch_document sample_cfg (connector_init sample_cfg)
         (failing_with json_decode_error) "42".
Proof.
  split; [reflexivity|]. split; [|reflexivity].
  intros msg H.
  assert (fetch_document sample_cfg (connector_init sample_cfg) not_json "42"
          = Return (error_result "42"
                      "Request failed: Expecting value: line 1 column 1 (char 0)"))
    as E by reflexivity.
  rewrite E in H.
  assert (error_result "42"
            "Request failed: Expecting value: line 1 column 1 (char 0)"
          = error_result "42" ("Fetch error: " +:+ msg)) as H'
    by congruence.
  by apply error_result_inj in H'.
Qed.

Lemma fetch_first_row_without_id_witness :
  fetch_document sample_cfg (connector_init sample_cfg)
    (answering 200 (Return (PList [PDict [("title", PStr "Cats")]]))) "42"
  = Return (error_result "42" "Fetch error: 'id'").
Proof.
  eapply (fetch_first_row_without_id sample_cfg (connector_init sample_cfg)
            (answering 200 (Return (PList [PDict [("title", PStr "Cats")]])))
            "42" _ [("title", PStr "Cats")] []).
  - reflexivity.
  - simpl. lia.
  - reflexivity.
  - reflexivity.
Defined.

(** ** Startup *)

(** C8 (as the code has it): with the base URL or the credential
    unset, the module body raises ValueError and nothing is started;
    with both set and non-empty, and a timeout setting that [int]
    accepts, the check passes with the settings as given. *)
Theorem startup_validation (env : gmap string string) :
  (env !! "SUPABASE_URL" = None \/ env !! "SUPABASE_ANON_KEY" = None ->
   exists e, load_config env = Raise e /\ exn_cls e = ValueError)
  /\ (forall url key timeout,
        env !! "SUPABASE_URL" = Some url -> url <> "" ->
        env !! "SUPABASE_ANON_KEY" = Some key -> key <> "" ->
        py_int (getenv env "REQUEST_TIMEOUT" "30") = Return timeout ->
        exists cfg,
          load_config env = Return cfg
          /\ SUPABASE_URL cfg = url
          /\ SUPABASE_ANON_KEY cfg = key
          /\ REQUEST_TIMEOUT cfg = timeout).
Proof.
  split.
  - intros H. unfold load_config.
    destruct (py_int (getenv env "REQUEST_TIMEOUT" "30")) as [t|e] eqn:E.
    + rewrite bind_Return.
      assert (unset_or_empty (env !! "SUPABASE_URL")
              || unset_or_empty (env !! "SUPABASE_ANON_KEY") = true) as ->.
      { destruct H as [-> | ->]; simpl; [done|]. apply orb_true_r. }
      by exists config_error.
    + exists e. split; [done|].
      unfold py_int in E. by repeat (case_match; simplify_eq/=).
  - intros url key timeout Hurl Hne Hkey Hne' Hint.
    unfold load_config. rewrite Hint, bind_Return, Hurl, Hkey. simpl.
    destruct (String.eqb_spec url ""); [done|].
    destruct (String.eqb_spec key ""); [done|].
    simpl. eauto.
Qed.

Lemma startup_validation_witness :
  (exists e, load_config (<["SUPABASE_ANON_KEY" := "anon-key"]> ∅) = Raise e
             /\ exn_cls e = ValueError)
  /\ (exists cfg, load_config sample_env = Return cfg
                  /\ SUPABASE_URL cfg = "https://kb.example.co"
                  /\ SUPABASE_ANON_KEY cfg = "anon-key"
                  /\ REQUEST_TIMEOUT cfg = 30).
Proof.
  split.
  - apply (proj1 (startup_validation (<["SUPABASE_ANON_KEY" := "anon-key"]> ∅))).
    left. reflexivity.
  - apply (proj2 (startup_validation sample_env)
             "https://kb.example.co" "anon-key" 30).
    + reflexivity.
    + discriminate.
    + reflexivity.
    + discriminate.
    + reflexivity.
Defined.

(** C8 (as stated) fails in its second half: with both required
    settings present, startup still stops when one of them is empty,
    and when the timeout setting is not an integer. *)
Lemma startup_fails_with_both_present :
  (is_Some (empty_url_env !! "SUPABASE_URL")
   /\ is_Some (empty_url_env !! "SUPABASE_ANON_KEY")
   /\ load_config empty_url_env = Raise config_error)
  /\ (is_Some (bad_timeout_env !! "SUPABASE_URL")
      /\ is_Some (bad_timeout_env !! "SUPABASE_ANON_KEY")
      /\ load_config bad_timeout_env
         = Raise (Exn ValueError
                    "invalid literal for int() with base 10: 'soon'")).
Proof.
  repeat split; try (eexists; reflexivity); reflexivity.
Qed.

(** * Further properties of the connector, the tools and the settings *)

(** * Further properties of the connector, the tools and the settings *)

(** ** More on strings *)

Lemma str_app_cons c s t : String c s +:+ t = String c (s +:+ t).
Proof. reflexivity. Qed.

Lemma str_app_nil_l s : "" +:+ s = s.
Proof. reflexivity. Qed.

Lemma str_app_nil_r s : s +:+ "" = s.
Proof.
  induction s as [|c s IH]; [done|]. by rewrite str_app_cons, IH.
Qed.

Lemma str_app_assoc s t u : (s +:+ t) +:+ u = s +:+ t +:+ u.
Proof.
  induction s as [|c s IH]; [done|]. by rewrite !str_app_cons, IH.
Qed.

Lemma str_join_cons sep x y xs :
  str_join sep (x :: y :: xs) = x +:+ sep +:+ str_join sep (y :: xs).
Proof. reflexivity. Qed.

Lemma str_split_cons_sep sep s :
  str_split sep (String sep s) = "" :: str_split sep s.
Proof. simpl. by rewrite Ascii.eqb_refl. Qed.

(** Splitting after a prefix without the separator. *)
Lemma str_split_app_absent sep a b :
  str_contains sep a = false ->
  str_split sep (a +:+ b) =
    match str_split sep b with
    | x :: xs => (a +:+ x) :: xs
    | [] => [a]
    end.
Proof.
  pose proof (str_split_nonempty sep b) as Hne.
  induction a as [|c a IH].
  - intros _. rewrite str_app_nil_l. by destruct (str_split sep b).
  - rewrite str_app_cons. simpl.
    destruct (Ascii.eqb c sep); simpl; [done|].
    intros H. rewrite (IH H). by destruct (str_split sep b).
Qed.

Lemma str_split_head sep s :
  exists xs, str_split sep s = str_before sep s :: xs.
Proof.
  induction s as [|c s [xs IH]]; simpl; [by exists []|].
  destruct (Ascii.eqb c sep); [by eexists|].
  rewrite IH. by eexists.
Qed.

Lemma str_before_app sep q r :
  str_contains sep q = true -> str_before sep (q +:+ r) = str_before sep q.
Proof.
  induction q as [|c q IH]; [done|].
  rewrite str_app_cons. simpl.
  destruct (Ascii.eqb c sep); simpl; [done|].
  intros H. by rewrite (IH H).
Qed.

Lemma str_before_absent sep s :
  str_contains sep s = false -> str_before sep s = s.
Proof.
  induction s as [|c s IH]; simpl; [done|].
  destruct (Ascii.eqb c sep); simpl; [done|].
  intros H. by rewrite (IH H).
Qed.

Lemma str_before_no_sep sep s : str_contains sep (str_before sep s) = false.
Proof.
  induction s as [|c s IH]; simpl; [done|].
  destruct (Ascii.eqb c sep) eqn:E; simpl; [done|]. by rewrite E.
Qed.

(** A text is what stands before its first separator, followed by
    nothing or by the separator and more. *)
Lemma str_before_prefix sep s :
  exists rest, s = str_before sep s +:+ rest
               /\ (rest = "" \/ exists r, rest = String sep r).
Proof.
  induction s as [|c s (rest & IH & Hrest)]; simpl.
  - exists "". by split; [|left].
  - destruct (Ascii.eqb_spec c sep) as [->|_].
    + exists (String sep s). split; [done|]. right. by eexists.
    + exists rest. split; [|done]. by rewrite str_app_cons, <- IH.
Qed.

Lemma str_split_items_no_sep sep s :
  Forall (fun x => str_contains sep x = false) (str_split sep s).
Proof.
  induction s as [|c s IH]; simpl; [by repeat constructor|].
  destruct (Ascii.eqb c sep) eqn:E; [by constructor|].
  destruct (str_split sep s) as [|x xs].
  - repeat constructor. simpl. by rewrite E.
  - inversion IH as [|? ? Hx Hxs]; subst.
    constructor; [|done]. simpl. by rewrite E.
Qed.

(** [sep.join(s.split(sep)) == s] *)
Lemma str_join_split sep s :
  str_join (String sep "") (str_split sep s) = s.
Proof.
  induction s as [|c s IH]; simpl; [done|].
  destruct (Ascii.eqb_spec c sep) as [->|_].
  - pose proof (str_split_nonempty sep s) as Hne.
    destruct (str_split sep s) as [|x xs]; [done|].
    rewrite str_join_cons, str_app_nil_l, str_app_cons, str_app_nil_l.
    by rewrite IH.
  - destruct (str_split sep s) as [|x xs] eqn:E.
    + by apply str_split_nonempty in E.
    + rewrite <- IH. destruct xs; [done|].
      by rewrite !str_join_cons, str_app_cons.
Qed.

(** [sep.join(xs).split(sep) == xs] for items without the separator. *)
Lemma str_split_join sep xs :
  xs <> [] ->
  Forall (fun x => str_contains sep x = false) xs ->
  str_split sep (str_join (String sep "") xs) = xs.
Proof.
  intros Hne Hall. induction Hall as [|x xs Hx Hxs IH]; [done|].
  destruct xs as [|y xs].
  - by apply str_split_absent.
  - rewrite str_join_cons, (str_split_app_absent _ _ _ Hx).
    rewrite str_app_cons, str_app_nil_l, str_split_cons_sep, IH by done.
    by rewrite str_app_nil_r.
Qed.

Lemma substring_0_app s t : substring 0 (String.length s) (s +:+ t) = s.
Proof.
  induction s as [|c s IH]; [by destruct t|].
  rewrite str_app_cons. simpl. by rewrite IH.
Qed.

Lemma str_length_app s t :
  String.length (s +:+ t) = (String.length s + String.length t)%nat.
Proof.
  induction s as [|c s IH]; [done|].
  rewrite str_app_cons. simpl. by rewrite IH.
Qed.

(** The text between the parentheses of [(text)]. *)
Lemma or_members_parenthesised text :
  or_members ("(" +:+ text +:+ ")") = str_split "," text.
Proof.
  unfold or_members. f_equal.
  rewrite str_app_cons, str_app_nil_l. simpl.
  rewrite str_length_app. simpl.
  replace (String.length text + 1 - 1)%nat with (String.length text) by lia.
  apply substring_0_app.
Qed.

Lemma str_before_app_absent sep a b :
  str_contains sep a = false ->
  str_before sep (a +:+ b) = a +:+ str_before sep b.
Proof.
  induction a as [|c a IH]; [done|].
  rewrite !str_app_cons. simpl.
  destruct (Ascii.eqb c sep); simpl; [done|].
  intros H. by rewrite (IH H).
Qed.

Lemma str_join_head sep x xs :
  exists rest, str_join sep (x :: xs) = x +:+ rest.
Proof.
  destruct xs as [|y xs].
  - exists "". simpl. by rewrite str_app_nil_r.
  - eexists. apply str_join_cons.
Qed.

(** ** The search request, whatever the query *)

Section SearchRequestShape.
Context (cfg : Config) (self : SupabaseConnector).

Lemma filter_param_full query :
  str_split "=" (filter_param cfg query)
  = "or" :: str_split "=" (full_filter cfg query).
Proof.
  unfold filter_param, full_filter.
  set (tail := (_ +:+ ")")).
  change ("or=(" +:+ tail) with
    (String "o" (String "r" (String "=" ("(" +:+ tail)))).
  by cbn [str_split Ascii.eqb Bool.eqb].
Qed.

(** The request of a search, in closed form. *)
Lemma search_request_sent query :
  search_request cfg self query =
    Return {| req_url := base_url self +:+ "/" +:+ SUPABASE_TABLE cfg;
              req_headers := headers self;
              req_params :=
                <["or" := str_before "=" (full_filter cfg query)]>
                  (<["select" := ID_COLUMN cfg]> ∅);
              req_timeout := REQUEST_TIMEOUT cfg |}.
Proof.
  unfold search_request. rewrite filter_param_full.
  destruct (str_split_head "=" (full_filter cfg query)) as [xs ->].
  reflexivity.
Qed.

Lemma ilike_condition_absent c query column :
  str_contains c ".ilike.%" = false ->
  str_contains c query = false ->
  str_contains c column = false ->
  str_contains c (ilike_condition query column) = false.
Proof.
  intros Hlit Hq Hc. unfold ilike_condition.
  assert (str_contains c "%" = false) as Hp.
  { change ".ilike.%" with (".ilike." +:+ "%") in Hlit.
    rewrite str_contains_app in Hlit.
    by apply orb_false_elim in Hlit as [_ ?]. }
  by rewrite !str_contains_app, Hq, Hc, Hlit, Hp.
Qed.

Lemma full_filter_absent c query :
  str_contains c ".ilike.%" = false ->
  str_contains c "," = false ->
  str_contains c query = false ->
  Forall (fun column => str_contains c column = false) (SEARCH_COLUMNS cfg) ->
  str_contains c (str_join "," (map (ilike_condition query)
                                    (SEARCH_COLUMNS cfg))) = false.
Proof.
  intros Hlit Hsep Hq Hcols.
  apply str_contains_join; [exact Hsep|].
  apply Forall_map. eapply Forall_impl; [exact Hcols|].
  intros column Hc. by apply ilike_condition_absent.
Qed.

(** X1: whatever the query and the settings, the search request is
    built (the subscripts of line 69 never fail), carries exactly the
    two parameters [select], the id column, and [or], and the [or]
    value is the intended filter cut before its first [=]: it holds no
    [=], and what it leaves out is nothing or starts with [=]. *)
Theorem search_request_cut_before_eq query :
  exists request sent rest,
    search_request cfg self query = Return request
    /\ req_params request !! "select" = Some (ID_COLUMN cfg)
    /\ req_params request !! "or" = Some sent
    /\ dom (req_params request) = ({["select"; "or"]} : gset string)
    /\ full_filter cfg query = sent +:+ rest
    /\ str_contains "=" sent = false
    /\ (rest = "" \/ exists r, rest = String "=" r).
Proof.
  destruct (str_before_prefix "=" (full_filter cfg query))
    as (rest & Hfull & Hrest).
  eexists _, (str_before "=" (full_filter cfg query)), rest.
  split; [apply search_request_sent|]. simpl.
  split; [by rewrite lookup_insert_ne, lookup_insert_eq|].
  split; [by rewrite lookup_insert_eq|].
  split; [|split; [exact Hfull|split; [apply str_before_no_sep|exact Hrest]]].
  rewrite !dom_insert_L. set_solver.
Qed.

(** X2: a query that contains [=] never reaches the backing API whole:
    with a first search column free of [=], the [or] value sent is the
    opening parenthesis, that column's predicate up to the part of the
    query before its first [=], and nothing more (no closing
    parenthesis, no other column). *)
Theorem search_query_with_eq_is_cut query column others :
  SEARCH_COLUMNS cfg = column :: others ->
  str_contains "=" column = false ->
  str_contains "=" query = true ->
  exists request,
    search_request cfg self query = Return request
    /\ req_params request !! "or"
       = Some ("(" +:+ column +:+ ".ilike.%" +:+ str_before "=" query).
Proof.
  intros Hcols Hc Hq.
  assert (str_before "=" (full_filter cfg query)
          = "(" +:+ column +:+ ".ilike.%" +:+ str_before "=" query) as E.
  { unfold full_filter. rewrite Hcols. cbn [map].
    destruct (str_join_head "," (ilike_condition query column)
                (map (ilike_condition query) others)) as [rest ->].
    unfold ilike_condition.
    transitivity
      (str_before "="
         (("(" +:+ column +:+ ".ilike.%") +:+ query +:+ "%" +:+ rest +:+ ")")).
    { by rewrite !str_app_assoc. }
    rewrite str_before_app_absent, (str_before_app _ _ _ Hq).
    - by rewrite !str_app_assoc.
    - change "(" with (String "(" "").
      rewrite str_app_cons, str_app_nil_l.
      cbn [str_contains]. by rewrite str_contains_app, Hc. }
  eexists. split; [apply search_request_sent|].
  cbn [req_params]. by rewrite lookup_insert_eq, E.
Qed.

(** X3: a query free of [=] and [,] on columns free of them gives an
    or-list that reads back, member by member, as one predicate per
    search column, in the order of the columns. *)
Theorem search_filter_reads_back query :
  SEARCH_COLUMNS cfg <> [] ->
  Forall (fun column => str_contains "=" column = false
                        /\ str_contains "," column = false)
         (SEARCH_COLUMNS cfg) ->
  str_contains "=" query = false ->
  str_contains "," query = false ->
  exists request sent,
    search_request cfg self query = Return request
    /\ req_params request !! "or" = Some sent
    /\ or_members sent
       = map (fun column => column +:+ ".ilike.%" +:+ query +:+ "%")
             (SEARCH_COLUMNS cfg).
Proof.
  intros Hne Hcols Heq Hcomma.
  assert (str_before "=" (full_filter cfg query) = full_filter cfg query) as E.
  { apply str_before_absent. unfold full_filter.
    change "(" with (String "(" "").
    rewrite str_app_cons, str_app_nil_l. cbn [str_contains].
    rewrite str_contains_app, full_filter_absent; [done..|].
    eapply Forall_impl; [exact Hcols|]. by intros column [Hc _]. }
  eexists _, _. split; [apply search_request_sent|].
  cbn [req_params]. rewrite lookup_insert_eq, E. split; [reflexivity|].
  unfold full_filter. rewrite or_members_parenthesised.
  apply str_split_join.
  - by destruct (SEARCH_COLUMNS cfg).
  - apply Forall_map. eapply Forall_impl; [exact Hcols|].
    intros column [_ Hc]. by apply ilike_condition_absent.
Qed.
End SearchRequestShape.

Lemma search_query_with_eq_is_cut_witness :
  exists request,
    search_request sample_cfg (connector_init sample_cfg) "a=b" = Return request
    /\ req_params request !! "or" = Some "(title.ilike.%a".
Proof.
  apply (search_query_with_eq_is_cut sample_cfg (connector_init sample_cfg)
           "a=b" "title" ["content"]); reflexivity.
Defined.

Lemma search_filter_reads_back_witness :
  exists request sent,
    search_request sample_cfg (connector_init sample_cfg) "cats" = Return request
    /\ req_params request !! "or" = Some sent
    /\ or_members sent = ["title.ilike.%cats%"; "content.ilike.%cats%"].
Proof.
  apply (search_filter_reads_back sample_cfg (connector_init sample_cfg) "cats").
  - discriminate.
  - repeat constructor.
  - reflexivity.
  - reflexivity.
Defined.

(** ** What a query can add to the filter *)

Section Injection.
Context (cfg : Config) (self : SupabaseConnector).

(** X4: the query can add a member of its own to the or-list.  With
    one search column, free of [=] like the texts [a], [m] and [b],
    the query [a%,m,column.ilike.%b] sends exactly
    the or-list of three members: the column's predicate for [a], the
    caller's text [m], and the column's predicate for [b]. *)
Theorem search_query_adds_member column a m b :
  SEARCH_COLUMNS cfg = [column] ->
  str_contains "=" column = false ->
  str_contains "=" a = false ->
  str_contains "=" m = false ->
  str_contains "=" b = false ->
  exists request,
    search_request cfg self
      (a +:+ "%," +:+ m +:+ "," +:+ column +:+ ".ilike.%" +:+ b)
    = Return request
    /\ req_params request !! "or"
       = Some ("(" +:+ str_join ","
                         [column +:+ ".ilike.%" +:+ a +:+ "%";
                          m;
                          column +:+ ".ilike.%" +:+ b +:+ "%"] +:+ ")").
Proof.
  intros Hcols Hc Ha Hm Hb.
  set (query := a +:+ "%," +:+ m +:+ "," +:+ column +:+ ".ilike.%" +:+ b).
  assert (str_contains "=" query = false) as Hq.
  { subst query. by rewrite !str_contains_app, Ha, Hm, Hb, Hc. }
  assert (str_before "=" (full_filter cfg query) = full_filter cfg query) as E.
  { apply str_before_absent. unfold full_filter.
    change "(" with (String "(" "").
    rewrite str_app_cons, str_app_nil_l. cbn [str_contains].
    rewrite str_contains_app, full_filter_absent; [done..|].
    rewrite Hcols. by repeat constructor. }
  eexists. split; [apply search_request_sent|].
  cbn [req_params]. rewrite lookup_insert_eq, E. f_equal.
  unfold full_filter. rewrite Hcols. subst query.
  cbn [map]. unfold ilike_condition.
  rewrite !str_join_cons. change (str_join "," [?x]) with x.
  f_equal. rewrite !str_app_assoc. reflexivity.
Qed.
End Injection.

Lemma search_query_adds_member_witness :
  exists request,
    search_request
      (Build_Config "https://kb.example.co" "anon-key" "documents" ["title"]
                    "id" "title" "content" 30)
      (connector_init sample_cfg)
      "x%,id.gt.0,title.ilike.%y"
    = Return request
    /\ req_params request !! "or"
       = Some "(title.ilike.%x%,id.gt.0,title.ilike.%y%)".
Proof.
  apply (search_query_adds_member
           (Build_Config "https://kb.example.co" "anon-key" "documents"
                         ["title"] "id" "title" "content" 30)
           (connector_init sample_cfg) "title" "x" "id.gt.0" "y");
    reflexivity.
Defined.

(** ** Where the requests go *)

(** X5: both requests of the module-level connector go to
    [<SUPABASE_URL>/rest/v1/<table>], carry the configured timeout and
    the same three headers, with the credential as [apikey] and as
    bearer token. *)
Theorem requests_endpoint_and_credential cfg query doc_id request :
  search_request cfg (connector_init cfg) query = Return request ->
  let fetch_req := fetch_request cfg (connector_init cfg) doc_id in
  req_url request = SUPABASE_URL cfg +:+ "/rest/v1/" +:+ SUPABASE_TABLE cfg
  /\ req_url fetch_req = req_url request
  /\ req_timeout request = REQUEST_TIMEOUT cfg
  /\ req_timeout fetch_req = REQUEST_TIMEOUT cfg
  /\ req_headers fetch_req = req_headers request
  /\ req_headers request !! "apikey" = Some (SUPABASE_ANON_KEY cfg)
  /\ req_headers request !! "Authorization"
     = Some ("Bearer " +:+ SUPABASE_ANON_KEY cfg)
  /\ req_headers request !! "Content-Type" = Some "application/json"
  /\ dom (req_headers request)
     = ({["apikey"; "Authorization"; "Content-Type"]} : gset string).
Proof.
  rewrite search_request_sent. intros [= <-]. cbn.
  split; [by rewrite str_app_assoc|].
  repeat split; try done; rewrite !dom_insert_L; set_solver.
Qed.

Lemma requests_endpoint_and_credential_witness :
  exists request,
    search_request sample_cfg (connector_init sample_cfg) "cats" = Return request
    /\ req_url request = "https://kb.example.co/rest/v1/documents"
    /\ req_url (fetch_request sample_cfg (connector_init sample_cfg) "42")
       = req_url request
    /\ req_headers request !! "Authorization" = Some "Bearer anon-key".
Proof.
  eexists. split; [reflexivity|].
  pose proof (requests_endpoint_and_credential sample_cfg "cats" "42" _ eq_refl)
    as (H1 & H2 & _ & _ & _ & _ & H3 & _).
  split; [exact H1|]. split; [exact H2|exact H3].
Defined.

(** X6: the fetch request filters on the id column with [eq.] and the
    caller's id as given.  Unless the id column is itself named
    [select], it also asks for the three columns and has these two
    parameters only; when the id column is named [select], the column
    list is overwritten and the filter is the only parameter. *)
Theorem fetch_request_params cfg self doc_id :
  let params := req_params (fetch_request cfg self doc_id) in
  params !! ID_COLUMN cfg = Some ("eq." +:+ doc_id)
  /\ (ID_COLUMN cfg <> "select" ->
      params !! "select"
        = Some (ID_COLUMN cfg +:+ "," +:+ TITLE_COLUMN cfg +:+ ","
                +:+ CONTENT_COLUMN cfg)
      /\ dom params = ({["select"; ID_COLUMN cfg]} : gset string))
  /\ (ID_COLUMN cfg = "select" -> params = {["select" := "eq." +:+ doc_id]}).
Proof.
  cbn. split; [by rewrite lookup_insert_eq|]. split.
  - intros Hne. split; [by rewrite lookup_insert_ne, lookup_insert_eq|].
    rewrite !dom_insert_L, dom_empty_L, (right_id_L ∅ (∪)).
    apply (comm_L (∪)).
  - intros ->. by rewrite insert_insert_eq.
Qed.

Lemma fetch_request_params_witness :
  req_params (fetch_request sample_cfg (connector_init sample_cfg) "42")
    !! "select" = Some "id,title,content"
  /\ req_params
       (fetch_request
          (Build_Config "https://kb.example.co" "anon-key" "documents"
                        ["title"] "select" "title" "content" 30)
          (connector_init sample_cfg) "42")
     = {["select" := "eq.42"]}.
Proof.
  split.
  - apply (proj1 (proj1 (proj2 (fetch_request_params
             sample_cfg (connector_init sample_cfg) "42")) ltac:(discriminate))).
  - apply (proj2 (proj2 (fetch_request_params
             (Build_Config "https://kb.example.co" "anon-key" "documents"
                           ["title"] "select" "title" "content" 30)
             (connector_init sample_cfg) "42")) eq_refl).
Defined.

(** ** Status codes and decoded bodies *)

Lemma raise_for_status_passes r :
  ~ (400 <= status_code r < 600) -> raise_for_status r = Return tt.
Proof.
  intros H. unfold raise_for_status.
  destruct (Z.leb_spec 400 (status_code r)),
           (Z.ltb_spec (status_code r) 500),
           (Z.leb_spec 500 (status_code r)),
           (Z.ltb_spec (status_code r) 600); simpl; try done; lia.
Qed.

Lemma raise_for_status_passed r :
  raise_for_status r = Return tt -> ~ (400 <= status_code r < 600).
Proof.
  intros H Hst. by destruct (raise_for_status_error r Hst) as [msg E];
    rewrite E in H.
Qed.

Lemma comprehension_inv {A B} (f : A -> outcome B) xs ys :
  comprehension f xs = Return ys ->
  Forall2 (fun x y => f x = Return y) xs ys.
Proof.
  revert ys. induction xs as [|x xs IH]; simpl; intros ys.
  - intros [= <-]. constructor.
  - destruct (f x) as [y|e] eqn:Hx; simpl; [|done].
    destruct (comprehension f xs) as [ys'|e]; simpl; [|done].
    intros [= <-]. constructor; [done|]. by apply IH.
Qed.

(** The rows and id values behind a list of ids that [search_ids]
    returns: the body is an array, or it has nothing to iterate. *)
Lemma search_ids_inv cfg results ids :
  search_ids cfg results = Return ids ->
  ids <> [] ->
  exists rows values,
    results = PList rows
    /\ Forall2 (fun row v => py_getitem_str row (ID_COLUMN cfg) = Return v)
               rows values
    /\ ids = map py_str values.
Proof.
  unfold search_ids. intros H Hne.
  destruct results as [| | | |s|rows|d]; simpl in H; try done.
  - destruct s; simpl in H; [by simplify_eq|done].
  - exists rows. apply comprehension_inv in H. clear Hne.
    cut (exists values,
            Forall2 (fun row v => py_getitem_str row (ID_COLUMN cfg) = Return v)
                    rows values
            /\ ids = map py_str values).
    { intros (values & Hvs & ->). by exists values. }
    induction H as [|row id rows ids Hrow _ (values & Hvs & ->)].
    + by exists [].
    + destruct (py_getitem_str row (ID_COLUMN cfg)) as [v|e] eqn:Hv;
        simpl in Hrow; [|done].
      injection Hrow as <-. exists (v :: values).
      split; [by constructor|done].
  - destruct d as [|[k x] d]; simpl in H; [by simplify_eq|done].
Qed.

(** What [fetch_row] can return. *)
Lemma fetch_row_inv cfg doc_id results r :
  fetch_row cfg doc_id results = Return r ->
  (py_truthy results = false
   /\ r = error_result doc_id "Document not found")
  \/ (exists d rest v,
        results = PList (PDict d :: rest)
        /\ dict_lookup (ID_COLUMN cfg) d = Some v
        /\ r = row_result (py_str v)
                 (default (PStr "") (dict_lookup (TITLE_COLUMN cfg) d))
                 (default (PStr "") (dict_lookup (CONTENT_COLUMN cfg) d))).
Proof.
  unfold fetch_row.
  destruct (py_truthy results) eqn:Ht; simpl; [|intros [= <-]; by left].
  intros H. right.
  destruct results as [| | | |s|[|doc rest]|d]; simpl in H; try done.
  - by destruct s.
  - destruct doc as [| | | | | |d]; simpl in H; try done.
    destruct (dict_lookup (ID_COLUMN cfg) d) as [v|] eqn:Hid;
      simpl in H; [|done].
    exists d, rest, v. split; [done|]. split; [done|].
    by destruct (dict_lookup (TITLE_COLUMN cfg) d),
                (dict_lookup (CONTENT_COLUMN cfg) d); simplify_eq/=.
Qed.

(** ** Search, whatever the backing API does *)

Section SearchAlways.
Context (cfg : Config) (net : network).

(** X7: whatever the settings, the backing API and the query, [search]
    raises nothing and returns a dict with the single key [ids],
    holding the list [search_documents] returned. *)
Theorem search_always_returns_ids query :
  exists ids,
    search_documents cfg (connector_init cfg) net query = Return ids
    /\ search cfg net query = Return {["ids" := ids]}
    /\ dom ({["ids" := ids]} : gmap string (list string))
       = ({["ids"]} : gset string).
Proof.
  destruct (search_documents_never_raises cfg net (connector_init cfg) query)
    as [ids E].
  exists ids. split; [exact E|]. split; [|apply dom_singleton_L].
  unfold search. by rewrite E.
Qed.

(** X8: a search that returns ids got them from a response that passed
    the status check (its status is outside 400..599) and whose body
    is a JSON array in which every row is an object with the id
    column; the ids are these rows' id values through [str], one per
    row, in order. *)
Theorem search_ids_come_from_rows self query ids :
  search_documents cfg self net query = Return ids ->
  ids <> [] ->
  exists request response rows values,
    search_request cfg self query = Return request
    /\ net request = Return response
    /\ ~ (400 <= status_code response < 600)
    /\ json response = Return (PList rows)
    /\ Forall2 (fun row v => exists d, row = PDict d
                  /\ dict_lookup (ID_COLUMN cfg) d = Some v) rows values
    /\ ids = map py_str values.
Proof.
  rewrite search_documents_handled. unfold search_documents_body.
  rewrite search_request_sent, bind_Return.
  intros H Hne.
  destruct (net _) as [response|e] eqn:Hnet; simpl in H; [|by simplify_eq].
  destruct (raise_for_status response) as [[]|e] eqn:Hst; simpl in H;
    [|by simplify_eq].
  destruct (json response) as [results|e] eqn:Hjson; simpl in H;
    [|by simplify_eq].
  destruct (search_ids cfg results) as [ids'|e] eqn:Hids; [|by simplify_eq].
  injection H as <-.
  destruct (search_ids_inv _ _ _ Hids Hne) as (rows & values & -> & Hrows & ->).
  eexists _, response, rows, values.
  split; [reflexivity|]. split; [exact Hnet|].
  split; [by apply raise_for_status_passed|]. split; [exact Hjson|].
  split; [|done].
  eapply Forall2_impl; [exact Hrows|].
  intros row v Hrow. destruct row as [| | | | | |d]; simpl in Hrow; try done.
  exists d. split; [done|].
  by destruct (dict_lookup (ID_COLUMN cfg) d); simplify_eq.
Qed.

(** X9: a status outside 400..599 has no influence on a search: two
    responses to the same request that both pass the status check and
    decode to the same give the same result. *)
Theorem search_ignores_passing_status (net' : network) self query
    request response response' :
  search_request cfg self query = Return request ->
  net request = Return response ->
  net' request = Return response' ->
  ~ (400 <= status_code response < 600) ->
  ~ (400 <= status_code response' < 600) ->
  json response = json response' ->
  search_documents cfg self net query = search_documents cfg self net' query.
Proof.
  intros Hreq Hnet Hnet' Hst Hst' Hjson.
  rewrite !search_documents_handled. unfold search_documents_body.
  rewrite Hreq, !bind_Return, Hnet, Hnet', !bind_Return.
  by rewrite (raise_for_status_passes _ Hst),
             (raise_for_status_passes _ Hst'), Hjson.
Qed.
End SearchAlways.

Lemma search_ids_come_from_rows_witness :
  exists request response rows values,
    search_request sample_cfg (connector_init sample_cfg) "cats" = Return request
    /\ answering 200 (Return (PList [PDict [("id", PInt 7)]])) request
       = Return response
    /\ ~ (400 <= status_code response < 600)
    /\ json response = Return (PList rows)
    /\ Forall2 (fun row v => exists d, row = PDict d
                  /\ dict_lookup "id" d = Some v) rows values
    /\ ["7"] = map py_str values.
Proof.
  apply (search_ids_come_from_rows sample_cfg
           (answering 200 (Return (PList [PDict [("id", PInt 7)]])))
           (connector_init sample_cfg) "cats" ["7"]).
  - reflexivity.
  - discriminate.
Defined.

Lemma search_ignores_passing_status_witness :
  search_documents sample_cfg (connector_init sample_cfg)
    (answering 200 (Return (PList [PDict [("id", PInt 7)]]))) "cats"
  = search_documents sample_cfg (connector_init sample_cfg)
      (answering 300 (Return (PList [PDict [("id", PInt 7)]]))) "cats".
Proof.
  eapply (search_ignores_passing_status sample_cfg
            (answering 200 (Return (PList [PDict [("id", PInt 7)]])))
            (answering 300 (Return (PList [PDict [("id", PInt 7)]])))
            (connector_init sample_cfg) "cats").
  - reflexivity.
  - reflexivity.
  - reflexivity.
  - simpl. lia.
  - simpl. lia.
  - reflexivity.
Defined.

(** ** Fetch, whatever the backing API does *)

Lemma row_result_lookup id title content :
  row_result id title content !! "id" = Some (PStr id)
  /\ row_result id title content !! "title" = Some title
  /\ row_result id title content !! "content" = Some content
  /\ row_result id title content !! "error" = None
  /\ dom (row_result id title content)
     = ({["id"; "title"; "content"]} : gset string).
Proof.
  unfold row_result.
  repeat split; try done; rewrite !dom_insert_L, dom_empty_L; set_solver.
Qed.

Lemma error_result_dom doc_id error :
  dom (error_result doc_id error)
  = ({["id"; "title"; "content"; "error"]} : gset string).
Proof.
  unfold error_result. rewrite !dom_insert_L, dom_empty_L. set_solver.
Qed.

Section FetchAlways.
Context (cfg : Config) (self : SupabaseConnector) (net : network).

(** The four kinds of result of [fetch_document]. *)
Lemma fetch_document_cases doc_id :
  exists r,
    fetch_document cfg self net doc_id = Return r
    /\ (r = error_result doc_id "Document not found"
        \/ (exists msg, r = error_result doc_id ("Request failed: " +:+ msg))
        \/ (exists msg, r = error_result doc_id ("Fetch error: " +:+ msg))
        \/ (exists response d rest v,
              net (fetch_request cfg self doc_id) = Return response
              /\ raise_for_status response = Return tt
              /\ json response = Return (PList (PDict d :: rest))
              /\ dict_lookup (ID_COLUMN cfg) d = Some v
              /\ r = row_result (py_str v)
                       (default (PStr "") (dict_lookup (TITLE_COLUMN cfg) d))
                       (default (PStr "")
                                (dict_lookup (CONTENT_COLUMN cfg) d)))).
Proof.
  rewrite fetch_document_handled.
  destruct (fetch_document_body cfg self net doc_id) as [r|e] eqn:Hbody.
  - exists r. split; [done|].
    unfold fetch_document_body in Hbody.
    destruct (net _) as [response|e] eqn:Hnet; simpl in Hbody; [|done].
    destruct (raise_for_status response) as [[]|e] eqn:Hst; simpl in Hbody;
      [|done].
    destruct (json response) as [results|e] eqn:Hjson; simpl in Hbody; [|done].
    destruct (fetch_row_inv _ _ _ _ Hbody)
      as [[_ ->]|(d & rest & v & -> & Hid & ->)]; [by left|].
    do 3 right. by exists response, d, rest, v.
  - eexists. split; [done|].
    destruct (is_RequestException e); [right; left|right; right; left];
      by eexists.
Qed.

(** X10: whatever the backing API does, [fetch_document] raises
    nothing; its result has the members [id], [title] and [content]
    and at most [error] besides, [id] is a str, and whenever [error]
    is there, [id] is the caller's id and [title] and [content] are
    empty strings. *)
Theorem fetch_result_shape doc_id :
  exists r,
    fetch_document cfg self net doc_id = Return r
    /\ (exists s, r !! "id" = Some (PStr s))
    /\ is_Some (r !! "title")
    /\ is_Some (r !! "content")
    /\ dom r ⊆ ({["id"; "title"; "content"; "error"]} : gset string)
    /\ (is_Some (r !! "error") ->
        r !! "id" = Some (PStr doc_id)
        /\ r !! "title" = Some (PStr "")
        /\ r !! "content" = Some (PStr "")).
Proof.
  assert (forall error,
    let r := error_result doc_id error in
    (exists s, r !! "id" = Some (PStr s))
    /\ is_Some (r !! "title")
    /\ is_Some (r !! "content")
    /\ dom r ⊆ ({["id"; "title"; "content"; "error"]} : gset string)
    /\ (is_Some (r !! "error") ->
        r !! "id" = Some (PStr doc_id)
        /\ r !! "title" = Some (PStr "")
        /\ r !! "content" = Some (PStr ""))) as Herr.
  { intros error r. subst r.
    destruct (error_result_lookup doc_id error) as (Hi & Ht & Hc & He).
    rewrite Hi, Ht, Hc, error_result_dom. by eauto 10. }
  destruct (fetch_document_cases doc_id)
    as (r & E & [->|[[msg ->]|[[msg ->]|(? & d & ? & v & _ & _ & _ & _ & ->)]]]);
    exists r || eexists; (split; [exact E|]); try apply Herr.
  match goal with |- context [row_result ?i ?t ?c] =>
    destruct (row_result_lookup i t c) as (Hi & Ht & Hc & He & Hd) end.
  rewrite Hi, Ht, Hc, He, Hd.
  split; [by eauto|]. split; [done|]. split; [done|].
  split; [apply union_subseteq_l|]. by intros [? ?].
Qed.

(** X11: the [error] member of a fetch result, when there is one, is
    [Document not found], or begins with [Request failed: ], or begins
    with [Fetch error: ]; there is no other error text. *)
Theorem fetch_error_texts doc_id :
  exists r,
    fetch_document cfg self net doc_id = Return r
    /\ (r !! "error" = None
        \/ r !! "error" = Some (PStr "Document not found")
        \/ (exists msg, r !! "error" = Some (PStr ("Request failed: " +:+ msg)))
        \/ (exists msg, r !! "error" = Some (PStr ("Fetch error: " +:+ msg)))).
Proof.
  destruct (fetch_document_cases doc_id)
    as (r & E & [->|[[msg ->]|[[msg ->]|(? & d & ? & v & _ & _ & _ & _ & ->)]]]);
    eexists; (split; [exact E|]).
  - right; left. apply error_result_lookup.
  - right; right; left. exists msg. apply error_result_lookup.
  - right; right; right. exists msg. apply error_result_lookup.
  - left. apply row_result_lookup.
Qed.

(** X12: a decoded body that Python counts as false ([null], [false],
    [0], an empty string, array or object) is answered like an empty
    row set: [Document not found] with the caller's id, whatever the
    status outside 400..599. *)
Theorem fetch_falsy_body_not_found doc_id response results :
  net (fetch_request cfg self doc_id) = Return response ->
  ~ (400 <= status_code response < 600) ->
  json response = Return results ->
  py_truthy results = false ->
  fetch_document cfg self net doc_id
  = Return (error_result doc_id "Document not found").
Proof.
  intros Hnet Hst Hjson Hfalsy.
  rewrite fetch_document_handled. unfold fetch_document_body.
  rewrite Hnet, bind_Return, (raise_for_status_passes _ Hst), bind_Return.
  rewrite Hjson, bind_Return. unfold fetch_row. by rewrite Hfalsy.
Qed.

(** X13: only the first row of the body counts: two responses that
    pass the status check and whose bodies are arrays with the same
    first element give the same result, whatever the other rows and
    the statuses are. *)
Theorem fetch_first_row_decides (net' : network) doc_id
    response response' row rest rest' :
  net (fetch_request cfg self doc_id) = Return response ->
  net' (fetch_request cfg self doc_id) = Return response' ->
  ~ (400 <= status_code response < 600) ->
  ~ (400 <= status_code response' < 600) ->
  json response = Return (PList (row :: rest)) ->
  json response' = Return (PList (row :: rest')) ->
  fetch_document cfg self net doc_id = fetch_document cfg self net' doc_id.
Proof.
  intros Hnet Hnet' Hst Hst' Hjson Hjson'.
  rewrite !fetch_document_handled. unfold fetch_document_body.
  rewrite Hnet, Hnet', !bind_Return.
  rewrite (raise_for_status_passes _ Hst), (raise_for_status_passes _ Hst').
  by rewrite !bind_Return, Hjson, Hjson'.
Qed.

(** X14: for a first row that has the id column, the result has no
    [error] member; [id] is the row's id value through [str] (not the
    id asked for), and [title] and [content] are the row's members
    exactly as decoded, or the empty string when the member is
    missing. *)
Theorem fetch_maps_first_row doc_id response d rest v :
  net (fetch_request cfg self doc_id) = Return response ->
  ~ (400 <= status_code response < 600) ->
  json response = Return (PList (PDict d :: rest)) ->
  dict_lookup (ID_COLUMN cfg) d = Some v ->
  exists r,
    fetch_document cfg self net doc_id = Return r
    /\ r !! "id" = Some (PStr (py_str v))
    /\ r !! "title"
       = Some (match dict_lookup (TITLE_COLUMN cfg) d with
               | Some title => title
               | None => PStr ""
               end)
    /\ r !! "content"
       = Some (match dict_lookup (CONTENT_COLUMN cfg) d with
               | Some content => content
               | None => PStr ""
               end)
    /\ r !! "error" = None
    /\ dom r = ({["id"; "title"; "content"]} : gset string).
Proof.
  intros Hnet Hst Hjson Hid.
  exists (row_result (py_str v)
            (default (PStr "") (dict_lookup (TITLE_COLUMN cfg) d))
            (default (PStr "") (dict_lookup (CONTENT_COLUMN cfg) d))).
  split; [|apply row_result_lookup].
  rewrite fetch_document_handled. unfold fetch_document_body.
  rewrite Hnet, bind_Return, (raise_for_status_passes _ Hst), bind_Return.
  rewrite Hjson, bind_Return. unfold fetch_row. simpl. rewrite Hid. simpl.
  by destruct (dict_lookup (TITLE_COLUMN cfg) d),
              (dict_lookup (CONTENT_COLUMN cfg) d).
Qed.

(** X15: a fetch result without an [error] member can only come from
    a response that passed the status check and whose body is an array
    whose first element is an object with the id column. *)
Theorem fetch_success_comes_from_row doc_id r :
  fetch_document cfg self net doc_id = Return r ->
  r !! "error" = None ->
  exists response d rest v,
    net (fetch_request cfg self doc_id) = Return response
    /\ ~ (400 <= status_code response < 600)
    /\ json response = Return (PList (PDict d :: rest))
    /\ dict_lookup (ID_COLUMN cfg) d = Some v
    /\ r !! "id" = Some (PStr (py_str v)).
Proof.
  intros E Hnone.
  destruct (fetch_document_cases doc_id)
    as (r' & E' & [->|[[msg ->]|[[msg ->]|
                   (response & d & rest & v & Hnet & Hst & Hjson & Hid & ->)]]]);
    rewrite E in E'; injection E' as ->;
    try (by destruct (error_result_lookup doc_id "Document not found")
              as (_ & _ & _ & He); rewrite He in Hnone);
    try (by match type of Hnone with context [error_result _ ?m] =>
              destruct (error_result_lookup doc_id m) as (_ & _ & _ & He) end;
            rewrite He in Hnone).
  exists response, d, rest, v.
  split; [done|]. split; [by apply raise_for_status_passed|].
  split; [done|]. split; [done|]. apply row_result_lookup.
Qed.
End FetchAlways.

(** X16: [fetch] returns what [fetch_document] of the module-level
    connector returns, so it raises nothing either and its result
    always has a str [id], a [title] and a [content]. *)
Theorem fetch_tool_result cfg net id :
  exists r,
    fetch cfg net id = Return r
    /\ fetch_document cfg (connector_init cfg) net id = Return r
    /\ (exists s, r !! "id" = Some (PStr s))
    /\ is_Some (r !! "title")
    /\ is_Some (r !! "content").
Proof.
  destruct (fetch_document_cases cfg (connector_init cfg) net id)
    as (r & E & Hr).
  exists r. unfold fetch. rewrite E. split; [done|]. split; [done|].
  destruct Hr as [->|[[msg ->]|[[msg ->]|(? & d & ? & v & _ & _ & _ & _ & ->)]]];
    try (match goal with |- context [error_result _ ?m] =>
           destruct (error_result_lookup id m) as (Hi & Ht & Hc & _) end;
         rewrite Hi, Ht, Hc; by eauto).
  match goal with |- context [row_result ?i ?t ?c] =>
    destruct (row_result_lookup i t c) as (Hi & Ht & Hc & _) end.
  rewrite Hi, Ht, Hc. by eauto.
Qed.

Lemma fetch_falsy_body_not_found_witness :
  fetch_document sample_cfg (connector_init sample_cfg)
    (answering 200 (Return PNone)) "42"
  = Return (error_result "42" "Document not found").
Proof.
  eapply (fetch_falsy_body_not_found sample_cfg (connector_init sample_cfg)
            (answering 200 (Return PNone)) "42").
  - reflexivity.
  - simpl. lia.
  - reflexivity.
  - reflexivity.
Defined.

Lemma fetch_first_row_decides_witness :
  fetch_document sample_cfg (connector_init sample_cfg)
    (answering 200 (Return (PList [PDict [("id", PInt 7)]]))) "7"
  = fetch_document sample_cfg (connector_init sample_cfg)
      (answering 203 (Return (PList [PDict [("id", PInt 7)];
                                     PDict [("id", PInt 8)]]))) "7".
Proof.
  eapply (fetch_first_row_decides sample_cfg (connector_init sample_cfg)
            (answering 200 (Return (PList [PDict [("id", PInt 7)]])))
            (answering 203 (Return (PList [PDict [("id", PInt 7)];
                                           PDict [("id", PInt 8)]]))) "7").
  - reflexivity.
  - reflexivity.
  - simpl. lia.
  - simpl. lia.
  - reflexivity.
  - reflexivity.
Defined.

Lemma fetch_maps_first_row_witness :
  exists r,
    fetch_document sample_cfg (connector_init sample_cfg)
      (answering 200
         (Return (PList [PDict [("id", PInt 42); ("title", PNone)]]))) "42"
    = Return r
    /\ r !! "id" = Some (PStr "42")
    /\ r !! "title" = Some PNone
    /\ r !! "content" = Some (PStr "")
    /\ r !! "error" = None
    /\ dom r = ({["id"; "title"; "content"]} : gset string).
Proof.
  eapply (fetch_maps_first_row sample_cfg (connector_init sample_cfg)
            (answering 200
               (Return (PList [PDict [("id", PInt 42); ("title", PNone)]])))
            "42" _ [("id", PInt 42); ("title", PNone)] [] (PInt 42)).
  - reflexivity.
  - simpl. lia.
  - reflexivity.
  - reflexivity.
Defined.

Lemma fetch_success_comes_from_row_witness :
  exists response d rest v,
    answering 200 (Return (PList [PDict [("id", PInt 42)]]))
      (fetch_request sample_cfg (connector_init sample_cfg) "42")
    = Return response
    /\ ~ (400 <= status_code response < 600)
    /\ json response = Return (PList (PDict d :: rest))
    /\ dict_lookup "id" d = Some v
    /\ row_result "42" (PStr "") (PStr "") !! "id" = Some (PStr (py_str v)).
Proof.
  apply (fetch_success_comes_from_row sample_cfg (connector_init sample_cfg)
           (answering 200 (Return (PList [PDict [("id", PInt 42)]]))) "42"
           (row_result "42" (PStr "") (PStr ""))).
  - reflexivity.
  - reflexivity.
Defined.

(** ** The settings *)

Section Settings.
Context (env : gmap string string).

(** X17: a configuration that passes the startup check holds the base
    URL and the credential of the environment, both non-empty, and
    the timeout that [int] read. *)
Theorem loaded_config_required_settings cfg :
  load_config env = Return cfg ->
  env !! "SUPABASE_URL" = Some (SUPABASE_URL cfg)
  /\ SUPABASE_URL cfg <> ""
  /\ env !! "SUPABASE_ANON_KEY" = Some (SUPABASE_ANON_KEY cfg)
  /\ SUPABASE_ANON_KEY cfg <> ""
  /\ py_int (getenv env "REQUEST_TIMEOUT" "30") = Return (REQUEST_TIMEOUT cfg).
Proof.
  unfold load_config.
  destruct (py_int (getenv env "REQUEST_TIMEOUT" "30")) as [t|e]; [|done].
  rewrite bind_Return.
  destruct (env !! "SUPABASE_URL") as [url|], (env !! "SUPABASE_ANON_KEY")
    as [key|]; simpl; try done;
    destruct (String.eqb_spec url ""); simpl; try done;
    destruct (String.eqb_spec key ""); simpl; try done.
  by intros [= <-].
Qed.

(** X18: the search columns of a loaded configuration are the pieces
    of the SEARCH_COLUMNS setting (default [title,content]) between
    its commas: there is at least one, none contains a comma, and
    joined with commas they give the setting back.  Nothing is trimmed
    or dropped, so an empty setting gives one column with the empty
    name. *)
Theorem loaded_config_search_columns cfg :
  load_config env = Return cfg ->
  SEARCH_COLUMNS cfg <> []
  /\ Forall (fun column => str_contains "," column = false) (SEARCH_COLUMNS cfg)
  /\ str_join "," (SEARCH_COLUMNS cfg)
     = getenv env "SEARCH_COLUMNS" "title,content"
  /\ (env !! "SEARCH_COLUMNS" = Some "" -> SEARCH_COLUMNS cfg = [""]).
Proof.
  intros Hload.
  assert (SEARCH_COLUMNS cfg
          = str_split "," (getenv env "SEARCH_COLUMNS" "title,content")) as ->.
  { unfold load_config in Hload.
    destruct (py_int _); [|done]. rewrite bind_Return in Hload.
    destruct (_ || _); [done|]. by injection Hload as <-. }
  split; [apply str_split_nonempty|].
  split; [apply str_split_items_no_sep|].
  split; [apply str_join_split|].
  intros E. unfold getenv. by rewrite E.
Qed.

(** X19: the only exception of the startup check is ValueError: the
    one of [int] when the timeout setting is not an integer (raised
    first, whatever the required settings are), otherwise the
    configuration error, raised exactly when the base URL or the
    credential is unset or empty. *)
Theorem load_config_failures e :
  load_config env = Raise e ->
  exn_cls e = ValueError
  /\ (py_int (getenv env "REQUEST_TIMEOUT" "30") = Raise e
      \/ ((exists timeout,
              py_int (getenv env "REQUEST_TIMEOUT" "30") = Return timeout)
          /\ e = config_error
          /\ (unset_or_empty (env !! "SUPABASE_URL") = true
              \/ unset_or_empty (env !! "SUPABASE_ANON_KEY") = true))).
Proof.
  unfold load_config.
  destruct (py_int (getenv env "REQUEST_TIMEOUT" "30")) as [t|e'] eqn:Hint.
  - rewrite bind_Return.
    destruct (_ || _) eqn:Hreq; [|done].
    intros [= <-]. split; [done|]. right.
    split; [by eexists|]. split; [done|]. by apply orb_true_iff.
  - intros [= <-]. split; [|by left].
    unfold py_int in Hint. by repeat (case_match; simplify_eq/=).
Qed.
End Settings.

Lemma loaded_config_required_settings_witness :
  sample_env !! "SUPABASE_URL" = Some "https://kb.example.co"
  /\ "https://kb.example.co" <> ""
  /\ sample_env !! "SUPABASE_ANON_KEY" = Some "anon-key"
  /\ "anon-key" <> ""
  /\ py_int (getenv sample_env "REQUEST_TIMEOUT" "30") = Return 30.
Proof.
  apply (loaded_config_required_settings sample_env sample_cfg).
  reflexivity.
Defined.

Lemma loaded_config_search_columns_witness :
  ["title"; "content"] <> []
  /\ Forall (fun column => str_contains "," column = false) ["title"; "content"]
  /\ str_join "," ["title"; "content"]
     = getenv sample_env "SEARCH_COLUMNS" "title,content"
  /\ (sample_env !! "SEARCH_COLUMNS" = Some "" -> ["title"; "content"] = [""]).
Proof.
  apply (loaded_config_search_columns sample_env sample_cfg).
  reflexivity.
Defined.

Lemma load_config_failures_witness :
  exn_cls config_error = ValueError
  /\ (py_int (getenv empty_url_env "REQUEST_TIMEOUT" "30") = Raise config_error
      \/ ((exists timeout,
              py_int (getenv empty_url_env "REQUEST_TIMEOUT" "30")
              = Return timeout)
          /\ config_error = config_error
          /\ (unset_or_empty (empty_url_env !! "SUPABASE_URL") = true
              \/ unset_or_empty (empty_url_env !! "SUPABASE_ANON_KEY") = true))).
Proof.
  apply (load_config_failures empty_url_env config_error).
  reflexivity.
Defined.

(** ** The tunnel settings *)

Lemma ascii_lower_inv c x :
  x ∈ ["t"; "r"; "u"; "e"]%char ->
  ascii_lower c = x ->
  c = x \/ c = ascii_of_N (N_of_ascii x - 32).
Proof.
  intros Hx.
  repeat (apply elem_of_cons in Hx as [->|Hx]); [..|by apply elem_of_nil in Hx];
    destruct c as [[] [] [] [] [] [] [] []]; vm_compute;
    intros H; try discriminate H; auto.
Qed.

(** X20: the tunnel is switched on exactly by the four letters [true]
    in any mix of cases: unset means off, and nothing is trimmed, so
    no other spelling ([1], [yes], [true] with a space) switches it
    on. *)
Theorem use_localtunnel_values (env : gmap string string) :
  USE_LOCALTUNNEL env = true <->
  exists c1 c2 c3 c4,
    env !! "USE_LOCALTUNNEL"
    = Some (String c1 (String c2 (String c3 (String c4 ""))))
    /\ (c1 = "t" \/ c1 = "T")%char
    /\ (c2 = "r" \/ c2 = "R")%char
    /\ (c3 = "u" \/ c3 = "U")%char
    /\ (c4 = "e" \/ c4 = "E")%char.
Proof.
  unfold USE_LOCALTUNNEL, getenv. split.
  - destruct (env !! "USE_LOCALTUNNEL") as [s|]; [|done].
    intros H. apply String.eqb_eq in H.
    destruct s as [|c1 [|c2 [|c3 [|c4 [|c5 s]]]]]; try done.
    injection H as H1 H2 H3 H4.
    exists c1, c2, c3, c4. split; [done|].
    apply ascii_lower_inv in H1, H2, H3, H4;
      [|repeat constructor..].
    done.
  - intros (c1 & c2 & c3 & c4 & -> & [->| ->] & [->| ->] & [->| ->] & [->| ->]);
      reflexivity.
Qed.

(** X21: the tunnel command always starts with
    [npx localtunnel --port 8000]; a LOCALTUNNEL_SUBDOMAIN setting that
    is unset or empty adds nothing, and any other value adds exactly
    two arguments, [--subdomain] and the value as it is, as one
    argument whatever it contains. *)
Theorem tunnel_command_arguments (env : gmap string string) :
  let cmd := tunnel_command (LOCALTUNNEL_SUBDOMAIN env) in
  take 4 cmd = ["npx"; "localtunnel"; "--port"; "8000"]
  /\ (unset_or_empty (env !! "LOCALTUNNEL_SUBDOMAIN") = true ->
      drop 4 cmd = [])
  /\ (forall s, env !! "LOCALTUNNEL_SUBDOMAIN" = Some s -> s <> "" ->
      drop 4 cmd = ["--subdomain"; s]).
Proof.
  unfold tunnel_command, LOCALTUNNEL_SUBDOMAIN.
  destruct (env !! "LOCALTUNNEL_SUBDOMAIN") as [s|]; simpl.
  - destruct (String.eqb_spec s ""); simpl.
    + split; [done|]. split; [done|]. by intros ? [= <-].
    + split; [done|]. split; [done|]. by intros ? [= <-].
  - by repeat split.
Qed.

Lemma tunnel_command_arguments_witness :
  drop 4 (tunnel_command
            (LOCALTUNNEL_SUBDOMAIN (<["LOCALTUNNEL_SUBDOMAIN" := "kb demo"]> ∅)))
  = ["--subdomain"; "kb demo"].
Proof.
  apply (proj2 (proj2 (tunnel_command_arguments
                         (<["LOCALTUNNEL_SUBDOMAIN" := "kb demo"]> ∅)))
           "kb demo").
  - reflexivity.
  - discriminate.
Defined.

Lemma use_localtunnel_values_witness :
  USE_LOCALTUNNEL (<["USE_LOCALTUNNEL" := "True"]> ∅) = true.
Proof.
  apply (proj2 (use_localtunnel_values (<["USE_LOCALTUNNEL" := "True"]> ∅))).
  exists "T"%char, "r"%char, "u"%char, "e"%char.
  split; [reflexivity|]. repeat split; auto.
Defined.
